(** * tasksB: path guard and guarded I/O tasks

    A shallow embedding of [tasksB.py].  The module consists of one
    predicate, [B12], that screens filesystem paths, five task functions
    ([B3], [B5], [B6], [B7], [B9]) that call one external library each and
    write one output file, and one HTTP handler ([B10]).

    Conventions of the embedding.
    - Python [str] is [string]; [bytes] payloads are [string] as well.
    - A Python call that may raise returns [exn + A].  Only instances of
      [Exception] are modelled (signals such as [KeyboardInterrupt], which
      [except Exception] does not intercept, are outside the model).
    - Every observable action (log record, library call, filesystem call)
      is recorded, in program order, in a list of [event]s; a task is a
      function from its arguments and a [World] of external capabilities
      to its outcome and that list.
    - Paths follow the POSIX flavour of [pathlib] and [posixpath]. *)

From Stdlib Require Import String Ascii List Bool ZArith Lia DecimalString.
Import ListNotations.
Local Open Scope string_scope.
Local Open Scope list_scope.

Set Implicit Arguments.
Set Warnings "-register-all".

(** ** Python string primitives *)

Module PyStr.

Definition slash : ascii := "/"%char.

(** [s.startswith(p)] *)
Definition startswith (s p : string) : bool := String.prefix p s.

Definition rev (s : string) : string :=
  string_of_list_ascii (List.rev (list_ascii_of_string s)).

(** [s.endswith(p)] *)
Definition endswith (s p : string) : bool := String.prefix (rev p) (rev s).

(** [sub in s] *)
Fixpoint contains (sub s : string) : bool :=
  String.prefix sub s ||
  match s with
  | EmptyString => false
  | String _ r => contains sub r
  end.

(** [s.split(sep)] for a one-character separator. *)
Fixpoint split (sep : ascii) (s : string) : list string :=
  match s with
  | EmptyString => [EmptyString]
  | String c r =>
      if Ascii.eqb c sep then EmptyString :: split sep r
      else match split sep r with
           | h :: t => String c h :: t
           | [] => [String c EmptyString]
           end
  end.

(** [sep.join(l)] *)
Fixpoint join (sep : string) (l : list string) : string :=
  match l with
  | [] => EmptyString
  | [x] => x
  | x :: t => x ++ sep ++ join sep t
  end.

Definition is_empty (s : string) : bool :=
  match s with EmptyString => true | _ => false end.

Fixpoint drop_while (f : ascii -> bool) (l : list ascii) : list ascii :=
  match l with
  | [] => []
  | c :: r => if f c then drop_while f r else l
  end.

Fixpoint take_while (f : ascii -> bool) (l : list ascii) : list ascii :=
  match l with
  | [] => []
  | c :: r => if f c then c :: take_while f r else []
  end.

Definition is_slash (c : ascii) : bool := Ascii.eqb c slash.
Definition not_slash (c : ascii) : bool := negb (is_slash c).

End PyStr.

(** ** posixpath *)

Module posixpath.
Import PyStr.

(** [posixpath.split(p)]: the text up to and including the last slash,
    and the text after it ([i = p.rfind('/') + 1; p[:i], p[i:]]).  Both
    are kept reversed-free: plain strings in reading order. *)
Definition split_at_last_slash (p : string) : string * string :=
  let r := List.rev (list_ascii_of_string p) in
  (string_of_list_ascii (List.rev (drop_while not_slash r)),
   string_of_list_ascii (List.rev (take_while not_slash r))).

(** [os.path.basename(p)] *)
Definition basename (p : string) : string := snd (split_at_last_slash p).

(** [os.path.dirname(p)]: the head; unless it consists of slashes only,
    its trailing slashes are stripped. *)
Definition dirname (p : string) : string :=
  let r := List.rev (list_ascii_of_string p) in
  let head := drop_while not_slash r in
  if forallb is_slash head then string_of_list_ascii (List.rev head)
  else string_of_list_ascii (List.rev (drop_while is_slash head)).

(** [posixpath.splitroot(p)] without the drive, which is always empty:
    exactly two leading slashes form the root [//], any other number of
    leading slashes the root [/]. *)
Definition splitroot (p : string) : string * string :=
  match p with
  | String c0 r0 =>
      if is_slash c0 then
        match r0 with
        | String c1 r1 =>
            if is_slash c1 then
              match r1 with
              | String c2 _ =>
                  if is_slash c2 then ("/", r0) else ("//", r1)
              | EmptyString => ("//", r1)
              end
            else ("/", r0)
        | EmptyString => ("/", r0)
        end
      else (EmptyString, p)
  | EmptyString => (EmptyString, p)
  end.

End posixpath.

(** ** pathlib (POSIX flavour) *)

Module pathlib.
Import PyStr.

(** A parsed path: its root ([""], ["/"] or ["//"]) and its segments. *)
Record PurePath : Type := mkPath { root : string; tail : list string }.

Definition keep_segment (x : string) : bool :=
  negb (is_empty x) && negb (String.eqb x ".").

(** [PurePosixPath._parse_path]: empty segments and [.] segments are
    dropped; [..] segments are kept. *)
Definition parse (s : string) : PurePath :=
  if is_empty s then mkPath EmptyString []
  else
    let '(rt, rel) := posixpath.splitroot s in
    mkPath rt (filter keep_segment (split slash rel)).

(** [str(path)] *)
Definition str (p : PurePath) : string :=
  if is_empty (root p) then
    let j := join "/" (tail p) in
    if is_empty j then "." else j
  else root p ++ join "/" (tail p).

(** [path.is_absolute()] *)
Definition is_absolute (p : PurePath) : bool := negb (is_empty (root p)).

End pathlib.

(** ** Exceptions and the effect monad *)

(** A raised [Exception]: an ordinary one with its class name and its
    message, or FastAPI's [HTTPException]. *)
Inductive exn : Type :=
| PyExn (cls : string) (msg : string)
| HTTPException (status_code : Z) (detail : string).

Definition decimal (z : Z) : string := NilZero.string_of_int (Z.to_int z).

(** [str(e)] *)
Definition exn_str (e : exn) : string :=
  match e with
  | PyExn _ msg => msg
  | HTTPException sc d => decimal sc ++ ": " ++ d
  end.

Definition result (A : Type) : Type := (exn + A)%type.

(** JSON documents as [json.dump] receives them. *)
Inductive json : Type :=
| JNull
| JBool (b : bool)
| JInt (z : Z)
| JFloat (bits : Z)
| JStr (s : string)
| JArr (l : list json)
| JObj (fields : list (string * json)).

Inductive log_level : Type := INFO | ERROR.

Inductive sql_engine : Type := Sqlite3 | DuckDB.

(** Observable actions, in the order the program performs them. *)
Inductive event : Type :=
| Log (lvl : log_level) (msg : string)
| HttpGet (url : string) (headers : option (list (string * string))) (timeout : Z)
| SqlConnect (engine : sql_engine) (db_path : string)
| SqlExecute (query : string)
| SqlClose
| Makedirs (dir : string)
| OpenRead (path : string)
| OpenWrite (path : string)
| WriteText (path : string) (content : string)
| WriteJson (path : string) (doc : json) (indent : Z)
| WriteBytes (path : string) (content : string)
| HtmlParse (html : string)
| HtmlSelect (selector : string)
| ImageOpen (path : string)
| ImageResize (width height : Z)
| ImageSave (path : string) (format : option string) (quality : option Z)
| MarkdownRender (text : string) (extensions : list string)
| ReadCsv (path : string).

Definition is_log (e : event) : bool :=
  match e with Log _ _ => true | _ => false end.

Definition M (A : Type) : Type := (result A * list event)%type.

Definition ret {A} (a : A) : M A := (inr a, []).

Definition raise {A} (e : exn) : M A := (inl e, []).

Definition bind {A B} (m : M A) (k : A -> M B) : M B :=
  match m with
  | (inl e, t) => (inl e, t)
  | (inr a, t) => let '(r, t') := k a in (r, t ++ t')
  end.

(** [try: m  except Exception as e: h e] *)
Definition try_except {A} (m : M A) (h : exn -> M A) : M A :=
  match m with
  | (inl e, t) => let '(r, t') := h e in (r, t ++ t')
  | (inr a, t) => (inr a, t)
  end.

(** Perform an external call: record it, then deliver its outcome. *)
Definition perform {A} (ev : event) (r : result A) : M A := (r, [ev]).

Definition perform_ (ev : event) (r : option exn) : M unit :=
  (match r with Some e => inl e | None => inr tt end, [ev]).

Definition log_info (msg : string) : M unit := (inr tt, [Log INFO msg]).
Definition log_error (msg : string) : M unit := (inr tt, [Log ERROR msg]).

Declare Scope py_scope.
Delimit Scope py_scope with py.
Notation "x <- m ;; k" := (bind m (fun x => k))
  (at level 61, m at next level, right associativity) : py_scope.
Notation "m ;;; k" := (bind m (fun _ => k))
  (at level 61, right associativity) : py_scope.
Local Open Scope py_scope.

(** ** B12: the path guard *)

(** Values a caller may hand to [B12]. *)
Inductive pyval : Type :=
| PyStr (s : string)
| PyPathObj (p : pathlib.PurePath)
| PyBytes (b : string)
| PyInt (z : Z)
| PyNone.

Definition type_name (v : pyval) : string :=
  match v with
  | PyStr _ => "str"
  | PyPathObj _ => "PosixPath"
  | PyBytes _ => "bytes"
  | PyInt _ => "int"
  | PyNone => "NoneType"
  end.

(** [Path(filepath)]: a [str] is parsed, a path object is taken as it is,
    anything else is a [TypeError]. *)
Definition Path (v : pyval) : result pathlib.PurePath :=
  match v with
  | PyStr s => inr (pathlib.parse s)
  | PyPathObj p => inr p
  | _ => inl (PyExn "TypeError"
                ("argument should be a str or an os.PathLike object where __fspath__ returns a str, not '"
                 ++ type_name v ++ "'"))
  end.

(** The literal of line 35. *)
Definition allowed_prefix : string := "/data".

Definition B12 (filepath : pyval) : M bool :=
  try_except
    (path <- (Path filepath, []) ;;
     if pathlib.is_absolute path
     then ret (PyStr.startswith (pathlib.str path) allowed_prefix)
     else ret true)
    (fun e =>
       log_error ("Security check failed: " ++ exn_str e) ;;;
       ret false).

(** The guard on a [str] argument, as the task functions call it. *)
Definition B12s (filepath : string) : M bool := B12 (PyStr filepath).

(** ** External capabilities *)

(** What [requests.get] hands back. *)
Record http_response : Type := mkResponse {
  resp_status : Z;
  resp_error_text : string;          (* text of the HTTPError for a 4xx/5xx status *)
  resp_content_type : option string; (* headers.get('content-type') *)
  resp_json : result json;           (* response.json() *)
  resp_content : string;             (* response.content *)
  resp_text : string                 (* response.text *)
}.

(** [response.raise_for_status()] *)
Definition raise_for_status (r : http_response) : result unit :=
  if ((400 <=? resp_status r) && (resp_status r <? 600))%Z
  then inl (PyExn "HTTPError" (resp_error_text r))
  else inr tt.

(** Values in a fetched row. [SqlOpaque] stands for any value the JSON
    encoder refuses ([bytes], [Decimal], [date], ...), by type name. *)
Inductive sqlval : Type :=
| SqlNull
| SqlInt (z : Z)
| SqlReal (bits : Z)
| SqlText (s : string)
| SqlOpaque (type_name : string).

Definition row : Type := list sqlval.

(** A cursor after [execute]: what [fetchall()] returns, and the first
    item of every entry of [description] ([None] for a statement that
    produces no result set). *)
Record cursor : Type := mkCursor {
  fetchall : list row;
  description : option (list string)
}.

(** A decoded image: its [format] attribute and its pixel data. *)
Record image : Type := mkImage { img_format : option string; img_pixels : string }.

(** The libraries and the operating system, as functions of the arguments
    the tasks pass.  [fs_open_write] is [open(path, 'w')] (or ['wb']),
    which truncates the file; [fs_write] is the write of the whole content
    and the closing of the file.  When the content cannot be produced (the
    JSON encoder refuses a value, [response.json()] raises), the trace
    shows [OpenWrite] without a following write event.  [conn.cursor()],
    [conn.close()] and the HTML parser are taken not to raise. *)
Record World : Type := mkWorld {
  requests_get : string -> option (list (string * string)) -> result http_response;
  sql_connect : sql_engine -> string -> option exn;
  sql_execute : sql_engine -> string -> string -> result cursor;
  fs_makedirs : string -> option exn;
  fs_open_write : string -> option exn;
  fs_write : string -> option exn;
  fs_read_text : string -> result string;
  bs4_import : option exn;
  soup_str : string -> string;
  soup_select : string -> string -> result string;
  clock_now : string;
  pil_open : string -> result image;
  pil_resize : image -> Z * Z -> result image;
  pil_save : image -> string -> option string -> option Z -> option exn;
  markdown_render : string -> list string -> result string
}.

Definition lift {A} (r : result A) : M A := (r, []).

Section Tasks.
Variable w : World.

(** [os.makedirs(d, exist_ok=True)]; the empty name is refused by the
    operating system whatever the state of the disk. *)
Definition os_makedirs (d : string) : M unit :=
  perform_ (Makedirs d)
    (if PyStr.is_empty d
     then Some (PyExn "FileNotFoundError" "[Errno 2] No such file or directory: ''")
     else fs_makedirs w d).

Definition open_w (path : string) : M unit :=
  perform_ (OpenWrite path) (fs_open_write w path).

Definition parent_dir (path : string) : string := posixpath.dirname path.

(** [not B12(a) or not B12(b)], with the short circuit of [or]. *)
Definition guard2_fails (a b : string) : M bool :=
  oka <- B12s a ;;
  if negb oka then ret true
  else okb <- B12s b ;; ret (negb okb).

(** *** B3: fetch and save *)

Definition B3_body (url save_path : string)
           (headers : option (list (string * string))) : M bool :=
  response <- perform (HttpGet url headers 30) (requests_get w url headers) ;;
  lift (raise_for_status response) ;;;
  os_makedirs (parent_dir save_path) ;;;
  let content_type :=
    match resp_content_type response with Some c => c | None => EmptyString end in
  (if PyStr.contains "application/json" content_type
   then
     open_w save_path ;;;
     doc <- lift (resp_json response) ;;
     perform_ (WriteJson save_path doc 2) (fs_write w save_path)
   else
     open_w save_path ;;;
     perform_ (WriteBytes save_path (resp_content response)) (fs_write w save_path)) ;;;
  log_info ("Successfully saved API data to " ++ save_path) ;;;
  ret true.

Definition B3 (url save_path : string)
           (headers : option (list (string * string))) : M bool :=
  ok <- B12s save_path ;;
  if negb ok then
    log_error ("Security check failed for path: " ++ save_path) ;;;
    ret false
  else
    try_except (B3_body url save_path headers)
      (fun e => log_error ("Error fetching API data: " ++ exn_str e) ;;; ret false).

(** *** B5: run a query *)

(** What [json.dump] makes of a fetched value. *)
Definition json_of_sqlval (v : sqlval) : result json :=
  match v with
  | SqlNull => inr JNull
  | SqlInt z => inr (JInt z)
  | SqlReal b => inr (JFloat b)
  | SqlText s => inr (JStr s)
  | SqlOpaque t =>
      inl (PyExn "TypeError" ("Object of type " ++ t ++ " is not JSON serializable"))
  end.

Fixpoint json_of_list {A} (f : A -> result json) (l : list A) : result (list json) :=
  match l with
  | [] => inr []
  | x :: t =>
      match f x with
      | inl e => inl e
      | inr j =>
          match json_of_list f t with
          | inl e => inl e
          | inr js => inr (j :: js)
          end
      end
  end.

(** A row is a tuple; the encoder writes a tuple as an array. *)
Definition json_of_row (r : row) : result json :=
  match json_of_list json_of_sqlval r with
  | inl e => inl e
  | inr js => inr (JArr js)
  end.

Definition json_of_rows (rs : list row) : result json :=
  match json_of_list json_of_row rs with
  | inl e => inl e
  | inr js => inr (JArr js)
  end.

(** [[desc[0] for desc in cursor.description]] *)
Definition column_names (c : cursor) : result (list string) :=
  match description c with
  | Some names => inr names
  | None => inl (PyExn "TypeError" "'NoneType' object is not iterable")
  end.

Definition select_engine (db_path : string) : sql_engine :=
  let is_sqlite := PyStr.endswith db_path ".db" in
  if is_sqlite then Sqlite3 else DuckDB.

(** The document of lines 107-111. *)
Definition query_document (query : string) (results names : json) : json :=
  JObj [("query", JStr query); ("results", results); ("column_names", names)].

Definition B5_body (db_path query output_filename : string) : M (option (list row)) :=
  let engine := select_engine db_path in
  perform_ (SqlConnect engine db_path) (sql_connect w engine db_path) ;;;
  cur <- perform (SqlExecute query) (sql_execute w engine db_path query) ;;
  let results := fetchall cur in
  os_makedirs (parent_dir output_filename) ;;;
  open_w output_filename ;;;
  names <- lift (column_names cur) ;;
  jresults <- lift (json_of_rows results) ;;
  perform_ (WriteJson output_filename
              (query_document query jresults (JArr (map JStr names))) 2)
           (fs_write w output_filename) ;;;
  perform_ SqlClose None ;;;
  log_info ("Successfully executed query and saved results to " ++ output_filename) ;;;
  ret (Some results).

Definition B5 (db_path query output_filename : string) : M (option (list row)) :=
  rejected <- guard2_fails db_path output_filename ;;
  if rejected then ret None
  else
    try_except (B5_body db_path query output_filename)
      (fun e => log_error ("Error executing SQL query: " ++ exn_str e) ;;; ret None).

End Tasks.

(** ** The module namespace *)

(** Names bound at module level by the [import] statements and the
    definitions of the file, in order.  Line 6, [from PIL import Image],
    is a comment and binds nothing. *)
Definition module_globals : list string :=
  [ "os"; "requests"; "sqlite3"; "duckdb"; "markdown";
    "Optional"; "Union"; "List"; "Dict"; "Any"; "Path";
    "logging"; "json"; "wraps"; "logger";
    "B12"; "B3"; "B5"; "B6"; "B7"; "B9";
    "FastAPI"; "HTTPException"; "BaseModel"; "app"; "FilterRequest"; "B10" ].

(** Evaluating a global name inside a function body. *)
Definition global_lookup (name : string) : result unit :=
  if existsb (String.eqb name) module_globals then inr tt
  else inl (PyExn "NameError" ("name '" ++ name ++ "' is not defined")).

Definition newline : string := String (ascii_of_nat 10) EmptyString.
Definition dquote : string := String (ascii_of_nat 34) EmptyString.

Section MoreTasks.
Variable w : World.

(** *** B6: scrape a page *)

(** Truth value of an [Optional[str]]. *)
Definition truthy (s : option string) : option string :=
  match s with
  | Some x => if PyStr.is_empty x then None else Some x
  | None => None
  end.

Definition import_module (r : option exn) : M unit :=
  lift (match r with Some e => inl e | None => inr tt end).

Definition B6_body (url output_filename : string) (selector : option string) : M bool :=
  import_module (bs4_import w) ;;;
  response <- perform (HttpGet url None 30) (requests_get w url None) ;;
  lift (raise_for_status response) ;;;
  perform_ (HtmlParse (resp_text response)) None ;;;
  content <- match truthy selector with
             | Some sel =>
                 perform (HtmlSelect sel) (soup_select w (resp_text response) sel)
             | None => ret (soup_str w (resp_text response))
             end ;;
  os_makedirs w (parent_dir output_filename) ;;;
  open_w w output_filename ;;;
  perform_ (WriteJson output_filename
              (JObj [("url", JStr url);
                     ("timestamp", JStr (clock_now w));
                     ("content", JStr content)]) 2)
           (fs_write w output_filename) ;;;
  log_info ("Successfully scraped website to " ++ output_filename) ;;;
  ret true.

Definition B6 (url output_filename : string) (selector : option string) : M bool :=
  ok <- B12s output_filename ;;
  if negb ok then ret false
  else
    try_except (B6_body url output_filename selector)
      (fun e => log_error ("Error scraping website: " ++ exn_str e) ;;; ret false).

(** *** B7: transform an image *)

Definition is_jpeg (f : option string) : bool :=
  match f with Some s => String.eqb s "JPEG" | None => false end.

Definition B7_body (image_path output_path : string) (resize : option (Z * Z))
           (format : option string) (quality : Z) : M bool :=
  lift (global_lookup "Image") ;;;
  img0 <- perform (ImageOpen image_path) (pil_open w image_path) ;;
  img <- match resize with
         | Some (wd, ht) =>
             lift (global_lookup "Image") ;;;
             perform (ImageResize wd ht) (pil_resize w img0 (wd, ht))
         | None => ret img0
         end ;;
  os_makedirs w (parent_dir output_path) ;;;
  let save_kwargs :=
    if is_jpeg format || is_jpeg (img_format img) then Some quality else None in
  perform_ (ImageSave output_path format save_kwargs)
           (pil_save w img output_path format save_kwargs) ;;;
  log_info ("Successfully processed image to " ++ output_path) ;;;
  ret true.

Definition B7 (image_path output_path : string) (resize : option (Z * Z))
           (format : option string) (quality : Z) : M bool :=
  rejected <- guard2_fails image_path output_path ;;
  if rejected then ret false
  else
    try_except (B7_body image_path output_path resize format quality)
      (fun e => log_error ("Error processing image: " ++ exn_str e) ;;; ret false).

(** *** B9: render Markdown *)

(** The f-string of lines 216-228, split at its two holes. *)
Definition shell_preamble : string :=
  newline ++
  "        <!DOCTYPE html>" ++ newline ++
  "        <html>" ++ newline ++
  "        <head>" ++ newline ++
  "            <meta charset=" ++ dquote ++ "utf-8" ++ dquote ++ ">" ++ newline ++
  "            <meta name=" ++ dquote ++ "viewport" ++ dquote ++
    " content=" ++ dquote ++ "width=device-width, initial-scale=1" ++ dquote ++ ">" ++ newline ++
  "            ".

Definition title_open : string := "<title>Converted from ".
Definition title_close : string := "</title>".

Definition shell_body_open : string :=
  newline ++
  "        </head>" ++ newline ++
  "        <body>" ++ newline ++
  "            ".

Definition shell_foot : string :=
  newline ++
  "        </body>" ++ newline ++
  "        </html>" ++ newline ++
  "        ".

Definition document_shell (title_name html : string) : string :=
  shell_preamble ++ title_open ++ title_name ++ title_close
  ++ shell_body_open ++ html ++ shell_foot.

Definition B9_body (md_path output_path : string) (extras : option (list string)) : M bool :=
  md_content <- perform (OpenRead md_path) (fs_read_text w md_path) ;;
  let extensions := match extras with
                    | Some (x :: t) => x :: t
                    | _ => []
                    end in
  html <- perform (MarkdownRender md_content extensions)
                  (markdown_render w md_content extensions) ;;
  let full_html := document_shell (posixpath.basename md_path) html in
  os_makedirs w (parent_dir output_path) ;;;
  open_w w output_path ;;;
  perform_ (WriteText output_path full_html) (fs_write w output_path) ;;;
  log_info ("Successfully converted markdown to " ++ output_path) ;;;
  ret true.

Definition B9 (md_path output_path : string) (extras : option (list string)) : M bool :=
  rejected <- guard2_fails md_path output_path ;;
  if rejected then ret false
  else
    try_except (B9_body md_path output_path extras)
      (fun e => log_error ("Error converting markdown: " ++ exn_str e) ;;; ret false).

End MoreTasks.

(** ** B10: the [POST /filter_csv] handler *)

Section FilterCsv.
(** Elements of a loaded frame, JSON scalars of a request, and Python's
    [==] between the two. *)
Variable cell : Type.
Variable scalar : Type.
Variable py_eq : cell -> scalar -> bool.

(** [filter_value: Any]: a scalar of the JSON body, or a JSON array. *)
Inductive filter_value : Type :=
| FScalar (v : scalar)
| FArray (vs : list scalar).

Record FilterRequest : Type := mkRequest {
  csv_path : string;
  filter_column : string;
  filter_value_of : filter_value
}.

Record DataFrame : Type := mkFrame {
  columns : list string;
  rows : list (list cell)
}.

(** Frames as [read_csv] builds them: distinct column labels, and one
    cell per column in every row. *)
Definition wf_frame (df : DataFrame) : Prop :=
  NoDup (columns df) /\
  Forall (fun r => length r = length (columns df)) (rows df).

(** The tabular library: whether it can be imported, what [read_csv]
    gives, and the text of the [KeyError] that [df[name]] raises for a
    label the frame does not have ([str(KeyError(name))], which Python
    builds as [repr(name)]). *)
Record Pandas : Type := mkPandas {
  pd_import : option exn;
  pd_read_csv : string -> result DataFrame;
  pd_key_error : string -> string
}.

Definition record : Type := list (string * cell).

Fixpoint index_of (name : string) (l : list string) : option nat :=
  match l with
  | [] => None
  | x :: t => if String.eqb name x then Some 0
              else option_map S (index_of name t)
  end.

(** [df[name]]: the position of a column, or [KeyError] with the text
    the library gives it. *)
Definition df_getitem (key_error : string -> string) (df : DataFrame)
           (name : string) : result nat :=
  match index_of name (columns df) with
  | Some i => inr i
  | None => inl (PyExn "KeyError" (key_error name))
  end.

Definition cell_matches (v : scalar) (c : option cell) : bool :=
  match c with Some x => py_eq x v | None => false end.

Fixpoint zip_matches (cs : list (option cell)) (vs : list scalar) : list bool :=
  match cs, vs with
  | c :: cs', v :: vs' => cell_matches v c :: zip_matches cs' vs'
  | _, _ => []
  end.

(** [series == value]: a scalar is compared with every element; an
    array is compared position by position and must be as long as the
    series. *)
Definition series_eq (series : list (option cell)) (fv : filter_value)
  : result (list bool) :=
  match fv with
  | FScalar v => inr (map (cell_matches v) series)
  | FArray vs =>
      if Nat.eqb (length series) (length vs)
      then inr (zip_matches series vs)
      else inl (PyExn "ValueError"
                  ("('Lengths must match to compare', ("
                   ++ decimal (Z.of_nat (length series)) ++ ",), ("
                   ++ decimal (Z.of_nat (length vs)) ++ ",))"))
  end.

(** [df[mask]] *)
Fixpoint select_rows (rs : list (list cell)) (mask : list bool) : list (list cell) :=
  match rs, mask with
  | r :: rs', b :: mask' =>
      if b then r :: select_rows rs' mask' else select_rows rs' mask'
  | _, _ => []
  end.

(** [to_dict(orient='records')] of the rows of a frame. *)
Definition to_records (cols : list string) (rs : list (list cell)) : list record :=
  map (fun r => combine cols r) rs.

Variable pd : Pandas.

Definition B10_body (request : FilterRequest) : M (list record) :=
  import_module (pd_import pd) ;;;
  df <- perform (ReadCsv (csv_path request)) (pd_read_csv pd (csv_path request)) ;;
  i <- lift (df_getitem (pd_key_error pd) df (filter_column request)) ;;
  mask <- lift (series_eq (map (fun r => nth_error r i) (rows df))
                          (filter_value_of request)) ;;
  ret (to_records (columns df) (select_rows (rows df) mask)).

Definition B10 (request : FilterRequest) : M (list record) :=
  ok <- B12s (csv_path request) ;;
  if negb ok then
    raise (HTTPException 403 "Access denied: Path must be within /data directory")
  else
    try_except (B10_body request)
      (fun e => raise (HTTPException 400 (exn_str e))).

(** What the framework sends for an outcome of the handler.  A returned
    list is encoded as strict JSON after the handler has returned, outside
    its [try]: a value that strict JSON cannot express (NaN, which is what
    an empty CSV cell loads as, or an infinity) makes the encoder raise,
    and the framework answers 500.  [json_compliant] tells which elements
    of a frame strict JSON can express. *)
Variable json_compliant : cell -> bool.

Definition encodable (l : list record) : bool :=
  forallb (fun r => forallb (fun kv => json_compliant (snd kv)) r) l.

Inductive http_body : Type :=
| BodyRecords (l : list record)
| BodyDetail (detail : string)
| BodyServerError.

Record http_reply : Type := mkReply { reply_status : Z; reply_body : http_body }.

Definition reply_of (outcome : result (list record)) : http_reply :=
  match outcome with
  | inr l => if encodable l then mkReply 200 (BodyRecords l)
             else mkReply 500 BodyServerError
  | inl (HTTPException sc d) => mkReply sc (BodyDetail d)
  | inl (PyExn _ _) => mkReply 500 BodyServerError
  end.

Definition post_filter_csv (request : FilterRequest) : http_reply :=
  reply_of (fst (B10 request)).

End FilterCsv.

Arguments BodyDetail {cell} detail.
Arguments BodyServerError {cell}.

(** ** Auxiliary definitions for the statements *)

(** The verdict of the guard on a [str]. *)
Definition guard_ok (s : string) : bool :=
  let p := pathlib.parse s in
  if pathlib.is_absolute p
  then PyStr.startswith (pathlib.str p) allowed_prefix
  else true.

(** Lexical resolution of [..] segments ([/..] is [/]); symbolic links are
    not followed. *)
Fixpoint resolve_segments (stack segs : list string) : list string :=
  match segs with
  | [] => List.rev stack
  | x :: t =>
      if String.eqb x ".." then resolve_segments (List.tl stack) t
      else resolve_segments (x :: stack) t
  end.

(** An absolute path that resolves to the directory [/data] or to a
    place below it. *)
Definition resolves_under_data (p : pathlib.PurePath) : bool :=
  pathlib.is_absolute p &&
  match resolve_segments [] (pathlib.tail p) with
  | x :: _ => String.eqb x "data"
  | [] => false
  end.

(** The outcome of a task call and the events it left. *)
Definition outcome {A} (m : M A) : result A := fst m.
Definition trace {A} (m : M A) : list event := snd m.

(** A trace without library or filesystem calls. *)
Definition only_logs (t : list event) : bool := forallb is_log t.

(** Python's [repr] of a [str] made of ASCII characters: single quotes,
    or double quotes when the text holds a single quote and no double
    quote; the quote in use and the backslash are escaped, tab, newline
    and carriage return are written [\t], [\n], [\r], other control
    characters as [\xhh].  Bytes above 127 are copied. *)
Module PyRepr.

Definition hex_digit (n : nat) : ascii :=
  nth n (list_ascii_of_string "0123456789abcdef") "0"%char.

Definition backslash : ascii := ascii_of_nat 92.
Definition single_quote : ascii := ascii_of_nat 39.
Definition double_quote : ascii := ascii_of_nat 34.

Definition escape (quote c : ascii) : string :=
  let n := nat_of_ascii c in
  if Ascii.eqb c quote || Ascii.eqb c backslash
  then String backslash (String c EmptyString)
  else if Nat.eqb n 9 then String backslash "t"
  else if Nat.eqb n 10 then String backslash "n"
  else if Nat.eqb n 13 then String backslash "r"
  else if Nat.ltb n 32 || Nat.eqb n 127
  then String backslash
         (String "x" (String (hex_digit (Nat.div n 16))
                        (String (hex_digit (Nat.modulo n 16)) EmptyString)))
  else String c EmptyString.

Definition repr (s : string) : string :=
  let cs := list_ascii_of_string s in
  let quote :=
    if existsb (Ascii.eqb single_quote) cs && negb (existsb (Ascii.eqb double_quote) cs)
    then double_quote else single_quote in
  String quote
    (String.concat EmptyString (map (escape quote) cs) ++ String quote EmptyString).

End PyRepr.

(** A world for closed examples: every filesystem call succeeds, the
    network answers with a plain-text body, the SQL engines know two
    statements, the Markdown renderer knows one document. *)
Module Demo.

Definition response : http_response :=
  mkResponse 200 "" (Some "text/plain")
    (inl (PyExn "JSONDecodeError" "Expecting value: line 1 column 1 (char 0)"))
    "payload" "payload".

Definition execute (_ : sql_engine) (_ query : string) : result cursor :=
  if String.eqb query "SELECT 1 AS x" then inr (mkCursor [[SqlInt 1]] (Some ["x"]))
  else if String.eqb query "SELECT 1 AS x WHERE 0" then inr (mkCursor [] (Some ["x"]))
  else if String.eqb query "CREATE TABLE t (x)" then inr (mkCursor [] None)
  else inl (PyExn "OperationalError" "syntax error").

Definition world : World :=
  {| requests_get := fun _ _ => inr response;
     sql_connect := fun _ _ => None;
     sql_execute := execute;
     fs_makedirs := fun _ => None;
     fs_open_write := fun _ => None;
     fs_write := fun _ => None;
     fs_read_text := fun p =>
       if String.eqb p "/data/docs/readme.md" then inr "# Title"
       else inl (PyExn "FileNotFoundError" "[Errno 2] No such file or directory");
     bs4_import := None;
     soup_str := fun html => html;
     soup_select := fun html _ => inr "[]";
     clock_now := "2025-02-16 10:00:00.000000";
     pil_open := fun _ => inr (mkImage (Some "PNG") "pixels");
     pil_resize := fun img _ => inr (mkImage None (img_pixels img));
     pil_save := fun _ _ _ _ => None;
     markdown_render := fun text _ =>
       if String.eqb text "# Title" then inr "<h1>Title</h1>"
       else inr ("<p>" ++ text ++ "</p>")%string |}.

(** A two-column table of text cells. *)
Definition frame : DataFrame string :=
  mkFrame ["user"; "status"]
          [["ann"; "active"]; ["bob"; "inactive"]; ["cy"; "active"]].

Definition pandas : Pandas string :=
  {| pd_import := None;
     pd_read_csv := fun p =>
       if String.eqb p "/data/users.csv" then inr frame
       else inl (PyExn "FileNotFoundError" "[Errno 2] No such file or directory");
     pd_key_error := PyRepr.repr |}.

(** Every text cell can be written as JSON. *)
Definition any_text (_ : string) : bool := true.

(** A table with an empty cell: [None] is the NaN that [read_csv] puts
    there. *)
Definition sparse_frame : DataFrame (option string) :=
  mkFrame ["user"; "status"]
          [[Some "ann"; Some "active"]; [None; Some "active"]].

Definition sparse_pandas : Pandas (option string) :=
  {| pd_import := None;
     pd_read_csv := fun _ => inr sparse_frame;
     pd_key_error := PyRepr.repr |}.

(** [==] between a cell and a string of the request: NaN equals nothing. *)
Definition text_eq (c : option string) (v : string) : bool :=
  match c with Some x => String.eqb x v | None => false end.

(** NaN is what strict JSON cannot express. *)
Definition not_nan (c : option string) : bool :=
  match c with Some _ => true | None => false end.

End Demo.

(** The query task: the events of a complete run, and the conditions
    under which every step of the body goes through. *)
Section QueryRun.
Variable w : World.
Variables db_path query output_filename : string.

Definition B5_trace (jresults : json) (names : list string) : list event :=
  [SqlConnect (select_engine db_path) db_path;
   SqlExecute query;
   Makedirs (parent_dir output_filename);
   OpenWrite output_filename;
   WriteJson output_filename
     (query_document query jresults (JArr (map JStr names))) 2;
   SqlClose;
   Log INFO ("Successfully executed query and saved results to " ++ output_filename)].

Definition B5_steps_ok (cur : cursor) (names : list string) (jresults : json) : Prop :=
  sql_connect w (select_engine db_path) db_path = None
  /\ sql_execute w (select_engine db_path) db_path query = inr cur
  /\ PyStr.is_empty (parent_dir output_filename) = false
  /\ fs_makedirs w (parent_dir output_filename) = None
  /\ fs_open_write w output_filename = None
  /\ description cur = Some names
  /\ json_of_rows (fetchall cur) = inr jresults
  /\ fs_write w output_filename = None.

End QueryRun.

(** Specification of the filter, in the words of its description: the
    records of the frame whose entry under the filter column equals the
    filter value.  An element of a frame is a scalar, so it equals no
    array. *)
Section FilterSpec.
Variable cell : Type.
Variable scalar : Type.
Variable py_eq : cell -> scalar -> bool.

Fixpoint lookup (name : string) (r : record cell) : option cell :=
  match r with
  | [] => None
  | (k, c) :: t => if String.eqb name k then Some c else lookup name t
  end.

Definition equals_filter_value (c : option cell) (fv : filter_value scalar) : bool :=
  match fv with
  | FScalar v => cell_matches py_eq v c
  | FArray _ => false
  end.

Definition spec_matching_records (df : DataFrame cell) (name : string)
           (fv : filter_value scalar) : list (record cell) :=
  filter (fun r => equals_filter_value (lookup name r) fv)
         (to_records (columns df) (rows df)).

End FilterSpec.

(** ** Predicates on names and traces *)

(** Does a name contain a slash? *)
Definition has_slash (s : string) : bool :=
  existsb PyStr.is_slash (list_ascii_of_string s).

(** The calls by which a task opens or writes a file of its own:
    [open(path, 'w')] or [open(path, 'wb')], the writes that follow, and
    [img.save]. *)
Definition opens_for_output (e : event) : bool :=
  match e with
  | OpenWrite _ => true
  | WriteText _ _ => true
  | WriteJson _ _ _ => true
  | WriteBytes _ _ => true
  | ImageSave _ _ _ => true
  | _ => false
  end.

(** A trace in which no output file is opened. *)
Definition output_never_opened (t : list event) : bool :=
  forallb (fun e => negb (opens_for_output e)) t.

(** A trace in which every path handed to the filesystem or to a
    library is an argument of the task: files are opened for writing at
    [out] only, directories are created at the directory part of [out]
    only, and files are read or databases connected to at the paths
    [inputs] only.  An SQL statement carries no path of the task: what
    the engine does on executing it is not described by the trace. *)
Definition confined (inputs : list string) (out : string) (t : list event) : bool :=
  forallb (fun e =>
             match e with
             | Makedirs d => String.eqb d (parent_dir out)
             | OpenWrite p => String.eqb p out
             | WriteText p _ => String.eqb p out
             | WriteJson p _ _ => String.eqb p out
             | WriteBytes p _ => String.eqb p out
             | ImageSave p _ _ => String.eqb p out
             | OpenRead p => existsb (String.eqb p) inputs
             | SqlConnect _ p => existsb (String.eqb p) inputs
             | ImageOpen p => existsb (String.eqb p) inputs
             | ReadCsv p => existsb (String.eqb p) inputs
             | _ => true
             end) t.

Definition is_sql_close (e : event) : bool :=
  match e with SqlClose => true | _ => false end.

Definition is_sql_connect (e : event) : bool :=
  match e with SqlConnect _ _ => true | _ => false end.

(** Values the JSON encoder accepts. *)
Definition serialisable (v : sqlval) : bool :=
  match v with SqlOpaque _ => false | _ => true end.

(** The encoding of a value the encoder accepts. *)
Definition json_of_plain (v : sqlval) : json :=
  match v with
  | SqlNull => JNull
  | SqlInt z => JInt z
  | SqlReal b => JFloat b
  | SqlText s => JStr s
  | SqlOpaque _ => JNull
  end.

(** Paths as [pathlib] builds them from a [str]: the root is empty, one
    slash or two, and no segment is empty, a dot, or contains a slash. *)
Definition plain_segment (x : string) : bool :=
  pathlib.keep_segment x && negb (has_slash x).

Definition normal_path (p : pathlib.PurePath) : bool :=
  (String.eqb (pathlib.root p) "" || String.eqb (pathlib.root p) "/"
   || String.eqb (pathlib.root p) "//")
  && forallb plain_segment (pathlib.tail p).

(** The trace holds a completed write of content to [out]. *)
Definition wrote_to (out : string) (t : list event) : bool :=
  existsb (fun e =>
             match e with
             | WriteText p _ => String.eqb p out
             | WriteJson p _ _ => String.eqb p out
             | WriteBytes p _ => String.eqb p out
             | _ => false
             end) t.

(** [headers.get('content-type', '')] *)
Definition content_type_of (r : http_response) : string :=
  match resp_content_type r with Some c => c | None => EmptyString end.

(** Variations of the example world. *)
Module Cases.

(** The example world with another answer from the network. *)
Definition with_response (r : http_response) : World :=
  mkWorld (fun _ _ => inr r)
    (sql_connect Demo.world) (sql_execute Demo.world) (fs_makedirs Demo.world)
    (fs_open_write Demo.world) (fs_write Demo.world) (fs_read_text Demo.world)
    (bs4_import Demo.world) (soup_str Demo.world) (soup_select Demo.world)
    (clock_now Demo.world) (pil_open Demo.world) (pil_resize Demo.world)
    (pil_save Demo.world) (markdown_render Demo.world).

(** The example world with another cursor after [execute]. *)
Definition with_cursor (c : cursor) : World :=
  mkWorld (requests_get Demo.world)
    (sql_connect Demo.world) (fun _ _ _ => inr c) (fs_makedirs Demo.world)
    (fs_open_write Demo.world) (fs_write Demo.world) (fs_read_text Demo.world)
    (bs4_import Demo.world) (soup_str Demo.world) (soup_select Demo.world)
    (clock_now Demo.world) (pil_open Demo.world) (pil_resize Demo.world)
    (pil_save Demo.world) (markdown_render Demo.world).


Definition not_found : http_response :=
  mkResponse 404 "404 Client Error: Not Found" None (inr JNull) "" "".

Definition html_as_json : http_response :=
  mkResponse 200 "" (Some "application/json; charset=utf-8")
    (inl (PyExn "JSONDecodeError" "Expecting value: line 1 column 1 (char 0)"))
    "<html>" "<html>".

Definition page : http_response :=
  mkResponse 200 "" (Some "text/html") (inl (PyExn "JSONDecodeError" "Expecting value"))
    "<p>hello</p>" "<p>hello</p>".

End Cases.

(** * Properties *)

(** ** The guard *)

Lemma B12_of_path (v : pyval) (p : pathlib.PurePath) :
  Path v = inr p ->
  B12 v = (inr (if pathlib.is_absolute p
                then PyStr.startswith (pathlib.str p) allowed_prefix
                else true), []).
Proof.
  intros Hp. unfold B12. rewrite Hp. cbn.
  destruct (pathlib.is_absolute p); reflexivity.
Qed.

Lemma B12_of_error (v : pyval) (e : exn) :
  Path v = inl e ->
  B12 v = (inr false, [Log ERROR ("Security check failed: " ++ exn_str e)]).
Proof.
  intros He. unfold B12. rewrite He. reflexivity.
Qed.

Lemma B12s_pure (s : string) : B12s s = (inr (guard_ok s), []).
Proof.
  unfold B12s, guard_ok. apply B12_of_path. reflexivity.
Qed.

Lemma prefix_cons (a b : ascii) (s1 s2 : string) :
  String.prefix (String a s1) (String b s2)
  = if Ascii.ascii_dec a b then String.prefix s1 s2 else false.
Proof. reflexivity. Qed.

Lemma prefix_empty (s : string) : String.prefix EmptyString s = true.
Proof. destruct s; reflexivity. Qed.

(** A [str] is absolute for [pathlib] exactly when it begins with a slash. *)
Lemma parse_is_absolute (s : string) :
  pathlib.is_absolute (pathlib.parse s) = PyStr.startswith s "/".
Proof.
  destruct s as [|c0 s]; [reflexivity|].
  unfold PyStr.startswith. rewrite prefix_cons, prefix_empty.
  unfold pathlib.parse.
  cbn [PyStr.is_empty posixpath.splitroot].
  unfold PyStr.is_slash, PyStr.slash.
  destruct (Ascii.eqb_spec c0 "/"%char) as [->|Hc].
  - destruct (Ascii.ascii_dec "/"%char "/"%char) as [_|N]; [|congruence].
    destruct s as [|c1 s]; [reflexivity|].
    destruct (Ascii.eqb c1 "/"%char); [|reflexivity].
    destruct s as [|c2 s]; [reflexivity|].
    destruct (Ascii.eqb c2 "/"%char); reflexivity.
  - destruct (Ascii.ascii_dec "/"%char c0) as [E|_]; [congruence|reflexivity].
Qed.

(** C1: on an absolute path the guard answers true exactly when the
    string form of the path starts with [/data]; on a relative path it
    answers true. *)
Theorem B12_prefix_rule (v : pyval) (p : pathlib.PurePath) :
  Path v = inr p ->
  (pathlib.is_absolute p = true ->
     (outcome (B12 v) = inr true
      <-> PyStr.startswith (pathlib.str p) "/data" = true))
  /\ (pathlib.is_absolute p = false -> outcome (B12 v) = inr true).
Proof.
  intros Hp. rewrite (B12_of_path v Hp). unfold outcome, allowed_prefix. cbn [fst].
  split; intros Habs; rewrite Habs.
  - split; intros H; [injection H as H; exact H | now rewrite H].
  - reflexivity.
Qed.

Lemma B12_prefix_rule_witness :
  (pathlib.is_absolute (pathlib.parse "/data/in/a.csv") = true ->
     (outcome (B12 (PyStr "/data/in/a.csv")) = inr true
      <-> PyStr.startswith (pathlib.str (pathlib.parse "/data/in/a.csv")) "/data" = true))
  /\ (pathlib.is_absolute (pathlib.parse "/data/in/a.csv") = false ->
      outcome (B12 (PyStr "/data/in/a.csv")) = inr true).
Proof.
  apply (@B12_prefix_rule (PyStr "/data/in/a.csv") (pathlib.parse "/data/in/a.csv")).
  reflexivity.
Defined.

(** C4: the guard always returns a Boolean; when building the path
    raises, the exception is logged and the answer is false. *)
Theorem B12_total (v : pyval) :
  exists (b : bool) (t : list event),
    B12 v = (inr b, t) /\
    forall e, Path v = inl e ->
      b = false /\ t = [Log ERROR ("Security check failed: " ++ exn_str e)].
Proof.
  destruct (Path v) as [e|p] eqn:Hp.
  - exists false, [Log ERROR ("Security check failed: " ++ exn_str e)].
    split; [exact (B12_of_error v Hp)|].
    intros e' He'. injection He' as <-. split; reflexivity.
  - eexists _, []. split; [exact (B12_of_path v Hp)|].
    intros e He. discriminate.
Qed.

Lemma B12_total_witness :
  exists (b : bool) (t : list event),
    B12 PyNone = (inr b, t) /\
    forall e, Path PyNone = inl e ->
      b = false /\ t = [Log ERROR ("Security check failed: " ++ exn_str e)].
Proof.
  apply (B12_total PyNone).
Defined.

(** The guard on some concrete names.  Two leading slashes form a root
    of their own, [.] segments and repeated slashes disappear, [..]
    segments stay. *)
Lemma B12_examples :
  B12s "/data/in/a.csv" = (inr true, [])
  /\ B12s "/etc/passwd" = (inr false, [])
  /\ B12s "//data/a.csv" = (inr false, [])
  /\ B12s "///data/a.csv" = (inr true, [])
  /\ B12s "/./data//a.csv" = (inr true, [])
  /\ B12s "/data/../etc/passwd" = (inr true, [])
  /\ B12s "/database" = (inr true, [])
  /\ B12s "../../etc/passwd" = (inr true, [])
  /\ B12s "" = (inr true, []).
Proof. repeat split. Qed.

(** Inputs that make [Path] raise exist: the exceptional branch is live. *)
Lemma B12_rejects_None :
  outcome (B12 PyNone) = inr false /\ only_logs (trace (B12 PyNone)) = true
  /\ trace (B12 PyNone) <> [].
Proof.
  repeat split. discriminate.
Qed.

(** ** Rejected paths stop a task *)

Lemma guard2_fails_pure (a b : string) :
  guard2_fails a b = (inr (negb (guard_ok a) || negb (guard_ok b)), []).
Proof.
  unfold guard2_fails. rewrite !B12s_pure. cbn.
  destruct (guard_ok a); cbn; [destruct (guard_ok b)|]; reflexivity.
Qed.

Lemma outcome_guard2_fails (a b : string) :
  outcome (guard2_fails a b) = inr (negb (guard_ok a) || negb (guard_ok b)).
Proof. rewrite guard2_fails_pure. reflexivity. Qed.

Lemma outcome_B12s (s : string) (b : bool) :
  outcome (B12s s) = inr b -> guard_ok s = b.
Proof.
  rewrite B12s_pure. cbn. congruence.
Qed.

Ltac guard_facts :=
  repeat match goal with
         | H : outcome (B12s _) = inr _ |- _ => apply outcome_B12s in H
         end.

(** C3: when a path argument of a task is rejected by the guard, the
    task returns its failure value ([False], or [None] for [B5]) and
    leaves no event but, for [B3], one log record: no library call and no
    filesystem call is made. *)
Theorem rejected_path_stops_task (w : World) :
  (forall url save_path headers,
      outcome (B12s save_path) = inr false ->
      B3 w url save_path headers
      = (inr false, [Log ERROR ("Security check failed for path: " ++ save_path)]))
  /\ (forall db_path query output_filename,
      outcome (B12s db_path) = inr false \/ outcome (B12s output_filename) = inr false ->
      B5 w db_path query output_filename = (inr None, []))
  /\ (forall url output_filename selector,
      outcome (B12s output_filename) = inr false ->
      B6 w url output_filename selector = (inr false, []))
  /\ (forall image_path output_path resize format quality,
      outcome (B12s image_path) = inr false \/ outcome (B12s output_path) = inr false ->
      B7 w image_path output_path resize format quality = (inr false, []))
  /\ (forall md_path output_path extras,
      outcome (B12s md_path) = inr false \/ outcome (B12s output_path) = inr false ->
      B9 w md_path output_path extras = (inr false, [])).
Proof.
  repeat split.
  - intros url save_path headers H. guard_facts.
    unfold B3. rewrite B12s_pure, H. reflexivity.
  - intros db_path query output_filename H. unfold B5.
    rewrite guard2_fails_pure.
    destruct H as [H|H]; guard_facts; rewrite H; cbn;
      [|rewrite orb_true_r]; reflexivity.
  - intros url output_filename selector H. guard_facts.
    unfold B6. rewrite B12s_pure, H. reflexivity.
  - intros image_path output_path resize format quality H. unfold B7.
    rewrite guard2_fails_pure.
    destruct H as [H|H]; guard_facts; rewrite H; cbn;
      [|rewrite orb_true_r]; reflexivity.
  - intros md_path output_path extras H. unfold B9.
    rewrite guard2_fails_pure.
    destruct H as [H|H]; guard_facts; rewrite H; cbn;
      [|rewrite orb_true_r]; reflexivity.
Qed.

Lemma rejected_path_stops_task_witness :
  B3 Demo.world "http://example.org/feed" "/etc/passwd" None
  = (inr false, [Log ERROR ("Security check failed for path: " ++ "/etc/passwd")]).
Proof.
  apply (proj1 (rejected_path_stops_task Demo.world)). reflexivity.
Defined.

(** ** Paths outside the directory [/data] *)

(** C2: the guard admits absolute paths that do not lie in the directory
    [/data]: [/database/dump.json] merely shares the first five
    characters, and [/data/../etc/cron.d/job] leaves the directory through
    a [..] segment.  [B3] then writes to both. *)
Theorem guard_admits_path_outside_data :
  (outcome (B12s "/database/dump.json") = inr true
   /\ pathlib.is_absolute (pathlib.parse "/database/dump.json") = true
   /\ resolves_under_data (pathlib.parse "/database/dump.json") = false
   /\ B3 Demo.world "http://example.org/feed" "/database/dump.json" None
      = (inr true,
         [HttpGet "http://example.org/feed" None 30;
          Makedirs "/database";
          OpenWrite "/database/dump.json";
          WriteBytes "/database/dump.json" "payload";
          Log INFO "Successfully saved API data to /database/dump.json"]))
  /\ (outcome (B12s "/data/../etc/cron.d/job") = inr true
      /\ pathlib.is_absolute (pathlib.parse "/data/../etc/cron.d/job") = true
      /\ resolves_under_data (pathlib.parse "/data/../etc/cron.d/job") = false
      /\ In (WriteBytes "/data/../etc/cron.d/job" "payload")
            (trace (B3 Demo.world "http://example.org/feed"
                       "/data/../etc/cron.d/job" None))).
Proof.
  repeat split; try reflexivity.
  vm_compute. do 3 right. left. reflexivity.
Qed.

(** Paths in the directory are recognised by [resolves_under_data]. *)
Lemma resolves_under_data_examples :
  resolves_under_data (pathlib.parse "/data") = true
  /\ resolves_under_data (pathlib.parse "/data/in/../out/a.json") = true
  /\ resolves_under_data (pathlib.parse "data/a.json") = false.
Proof. repeat split. Qed.

(** ** The image task *)

Lemma Image_unbound :
  global_lookup "Image" = inl (PyExn "NameError" "name 'Image' is not defined").
Proof. reflexivity. Qed.

(** C9: [B7] returns [False] on every input and never reaches the image
    library or the filesystem; with both paths accepted, the body stops
    at the unbound name [Image]. *)
Theorem B7_never_succeeds (w : World) (image_path output_path : string)
        (resize : option (Z * Z)) (format : option string) (quality : Z) :
  outcome (B7 w image_path output_path resize format quality) = inr false
  /\ only_logs (trace (B7 w image_path output_path resize format quality)) = true
  /\ (guard_ok image_path = true -> guard_ok output_path = true ->
      B7 w image_path output_path resize format quality
      = (inr false,
         [Log ERROR "Error processing image: name 'Image' is not defined"])).
Proof.
  unfold B7. rewrite guard2_fails_pure.
  destruct (guard_ok image_path), (guard_ok output_path); cbn;
    repeat split; intros; try reflexivity; discriminate.
Qed.

Lemma B7_never_succeeds_witness :
  B7 Demo.world "/data/in/photo.png" "/data/out/photo.jpg" (Some (64, 64)%Z)
     (Some "JPEG") 85
  = (inr false, [Log ERROR "Error processing image: name 'Image' is not defined"]).
Proof.
  apply (proj2 (proj2 (B7_never_succeeds Demo.world "/data/in/photo.png"
                         "/data/out/photo.jpg" (Some (64, 64)%Z) (Some "JPEG") 85)));
    reflexivity.
Defined.

(** ** The query task *)

Section QueryTask.
Variable w : World.
Variables db_path query output_filename : string.

Lemma B5_body_complete (cur : cursor) (names : list string) (jresults : json) :
  B5_steps_ok w db_path query output_filename cur names jresults ->
  B5_body w db_path query output_filename
  = (inr (Some (fetchall cur)), B5_trace db_path query output_filename jresults names).
Proof.
  intros (Hc & He & Hd & Hm & Ho & Hn & Hj & Hw).
  unfold B5_body, os_makedirs, open_w, column_names, B5_trace.
  unfold bind, perform, perform_, lift, log_info, ret.
  rewrite Hc, He, Hd, Hm, Ho, Hn, Hj, Hw. reflexivity.
Qed.

Lemma B5_body_inversion (r : option (list row)) :
  outcome (B5_body w db_path query output_filename) = inr r ->
  exists cur names jresults,
    B5_steps_ok w db_path query output_filename cur names jresults /\ r = Some (fetchall cur).
Proof.
  unfold B5_body, os_makedirs, open_w, column_names, B5_steps_ok, outcome.
  unfold bind, perform, perform_, lift, log_info, ret.
  destruct (sql_connect w (select_engine db_path) db_path) eqn:Hc; [discriminate|].
  destruct (sql_execute w (select_engine db_path) db_path query) as [e|cur] eqn:He; [discriminate|].
  destruct (PyStr.is_empty (parent_dir output_filename)) eqn:Hd; [discriminate|].
  destruct (fs_makedirs w (parent_dir output_filename)) eqn:Hm; [discriminate|].
  destruct (fs_open_write w output_filename) eqn:Ho; [discriminate|].
  destruct (description cur) as [names|] eqn:Hn; [|discriminate].
  destruct (json_of_rows (fetchall cur)) as [e|jresults] eqn:Hj; [discriminate|].
  destruct (fs_write w output_filename) eqn:Hw; [discriminate|].
  cbn. intros H. injection H as <-.
  exists cur, names, jresults. repeat split; assumption.
Qed.

Lemma B5_accepted :
  guard_ok db_path = true -> guard_ok output_filename = true ->
  B5 w db_path query output_filename
  = try_except (B5_body w db_path query output_filename)
      (fun e => log_error ("Error executing SQL query: " ++ exn_str e) ;;; ret None)%py.
Proof.
  intros Ha Hb. unfold B5. rewrite guard2_fails_pure, Ha, Hb. cbn.
  destruct (try_except _ _) as [r t]. reflexivity.
Qed.

End QueryTask.

Lemma try_except_ok {A} (m : M A) (h : exn -> M A) (a : A) :
  outcome m = inr a -> try_except m h = m.
Proof.
  destruct m as [[e|x] t]; cbn; [discriminate|reflexivity].
Qed.

Lemma try_except_raised {A} (m : M A) (h : exn -> M A) (e : exn) :
  outcome m = inl e ->
  try_except m h = (outcome (h e), trace m ++ trace (h e)).
Proof.
  destruct m as [[e'|x] t]; cbn; [|discriminate].
  intros H. injection H as ->. destruct (h e). reflexivity.
Qed.

Lemma outcome_cases {A} (m : M A) :
  (exists e, outcome m = inl e) \/ (exists a, outcome m = inr a).
Proof.
  destruct m as [[e|a] t]; [left|right]; eexists; reflexivity.
Qed.

Section QueryTaskCases.
Variable w : World.
Variables db_path query output_filename : string.

Lemma B5_body_first_event :
  exists r t,
    B5_body w db_path query output_filename
    = (r, SqlConnect (select_engine db_path) db_path :: t).
Proof.
  unfold B5_body. unfold bind at 1. unfold perform_.
  destruct (sql_connect w (select_engine db_path) db_path).
  - eexists _, _. reflexivity.
  - match goal with
    | |- context [let '(r, t') := ?m in _] => destruct m as [r t]
    end.
    eexists _, _. reflexivity.
Qed.

(** With both paths accepted, a call either catches an exception of
    the body and returns [None], or completes every step. *)
Lemma B5_cases :
  guard_ok db_path = true -> guard_ok output_filename = true ->
  (exists e,
      outcome (B5_body w db_path query output_filename) = inl e
      /\ B5 w db_path query output_filename
         = (inr None,
            trace (B5_body w db_path query output_filename)
            ++ [Log ERROR ("Error executing SQL query: " ++ exn_str e)]))
  \/ (exists cur names jresults,
         B5_steps_ok w db_path query output_filename cur names jresults
         /\ B5 w db_path query output_filename
            = (inr (Some (fetchall cur)),
               B5_trace db_path query output_filename jresults names)).
Proof.
  intros Ha Hb. rewrite (@B5_accepted w db_path query output_filename Ha Hb).
  destruct (outcome_cases (B5_body w db_path query output_filename)) as [[e He]|[r Hr]].
  - left. exists e. split; [exact He|].
    rewrite (try_except_raised _ _ He). reflexivity.
  - right. rewrite (try_except_ok _ _ Hr).
    destruct (@B5_body_inversion w db_path query output_filename _ Hr) as (cur & names & jres & Hok & ->).
    exists cur, names, jres. split; [exact Hok|].
    apply B5_body_complete. exact Hok.
Qed.

End QueryTaskCases.

Lemma endswith_engine (db_path : string) :
  (select_engine db_path = Sqlite3 <-> PyStr.endswith db_path ".db" = true)
  /\ (select_engine db_path = DuckDB <-> PyStr.endswith db_path ".db" = false).
Proof.
  unfold select_engine. destruct (PyStr.endswith db_path ".db");
    split; split; intros; congruence.
Qed.

(** C5: with both paths accepted, [B5] connects through sqlite3 exactly
    when [db_path] ends with [.db] and through duckdb otherwise; a
    successful call has written one JSON object whose keys are [query],
    [results], [column_names], in that order; and for [SELECT 1 AS x] on
    a [.db] file whose engine yields the single row [(1,)] under the
    column [x], the call returns that row list, written as [[[1]]], with
    [column_names] written as [["x"]]. *)
Theorem B5_engine_and_document (w : World) (db_path query output_filename : string) :
  guard_ok db_path = true -> guard_ok output_filename = true ->
  ((select_engine db_path = Sqlite3 <-> PyStr.endswith db_path ".db" = true)
   /\ (select_engine db_path = DuckDB <-> PyStr.endswith db_path ".db" = false)
   /\ exists t, trace (B5 w db_path query output_filename)
                = SqlConnect (select_engine db_path) db_path :: t)
  /\ (forall results,
         outcome (B5 w db_path query output_filename) = inr (Some results) ->
         exists jresults names,
           json_of_rows results = inr jresults
           /\ In (WriteJson output_filename
                    (JObj [("query", JStr query);
                           ("results", jresults);
                           ("column_names", JArr (map JStr names))]) 2)
                 (trace (B5 w db_path query output_filename)))
  /\ (query = "SELECT 1 AS x" ->
      PyStr.endswith db_path ".db" = true ->
      sql_connect w Sqlite3 db_path = None ->
      sql_execute w Sqlite3 db_path "SELECT 1 AS x"
        = inr (mkCursor [[SqlInt 1]] (Some ["x"])) ->
      PyStr.is_empty (parent_dir output_filename) = false ->
      fs_makedirs w (parent_dir output_filename) = None ->
      fs_open_write w output_filename = None ->
      fs_write w output_filename = None ->
      B5 w db_path query output_filename
      = (inr (Some [[SqlInt 1]]),
         [SqlConnect Sqlite3 db_path;
          SqlExecute "SELECT 1 AS x";
          Makedirs (parent_dir output_filename);
          OpenWrite output_filename;
          WriteJson output_filename
            (JObj [("query", JStr "SELECT 1 AS x");
                   ("results", JArr [JArr [JInt 1]]);
                   ("column_names", JArr [JStr "x"])]) 2;
          SqlClose;
          Log INFO ("Successfully executed query and saved results to "
                    ++ output_filename)])).
Proof.
  intros Ha Hb. split; [|split].
  - destruct (endswith_engine db_path) as [H1 H2].
    split; [exact H1|split; [exact H2|]].
    rewrite (@B5_accepted w db_path query output_filename Ha Hb).
    destruct (B5_body_first_event w db_path query output_filename) as (r & t & E).
    rewrite E. destruct r as [e|r]; cbn; eexists; reflexivity.
  - intros results Hres.
    destruct (@B5_cases w db_path query output_filename Ha Hb) as [(e & _ & E)|(cur & names & jres & Hok & E)];
      rewrite E in Hres |- *; cbn in Hres; [discriminate|].
    injection Hres as <-.
    exists jres, names. split; [apply Hok|].
    cbn. do 4 right. left. reflexivity.
  - intros -> Hdb Hc He Hd Hm Ho Hw.
    rewrite (@B5_accepted w db_path "SELECT 1 AS x" output_filename Ha Hb).
    assert (Heng : select_engine db_path = Sqlite3)
      by (apply (endswith_engine db_path); exact Hdb).
    rewrite (@B5_body_complete w db_path "SELECT 1 AS x" output_filename
               (mkCursor [[SqlInt 1]] (Some ["x"])) ["x"] (JArr [JArr [JInt 1]])).
    + unfold B5_trace. rewrite Heng. reflexivity.
    + unfold B5_steps_ok. rewrite Heng. repeat split; assumption.
Qed.

Lemma B5_engine_and_document_witness :
  B5 Demo.world "/data/app.db" "SELECT 1 AS x" "/data/out/result.json"
  = (inr (Some [[SqlInt 1]]),
     [SqlConnect Sqlite3 "/data/app.db";
      SqlExecute "SELECT 1 AS x";
      Makedirs (parent_dir "/data/out/result.json");
      OpenWrite "/data/out/result.json";
      WriteJson "/data/out/result.json"
        (JObj [("query", JStr "SELECT 1 AS x");
               ("results", JArr [JArr [JInt 1]]);
               ("column_names", JArr [JStr "x"])]) 2;
      SqlClose;
      Log INFO ("Successfully executed query and saved results to "
                ++ "/data/out/result.json")]).
Proof.
  apply (proj2 (proj2 (@B5_engine_and_document Demo.world "/data/app.db"
                         "SELECT 1 AS x" "/data/out/result.json"
                         eq_refl eq_refl))); reflexivity.
Defined.

(** The other engine is chosen for any other name. *)
Lemma B5_duckdb_example :
  exists t, trace (B5 Demo.world "/data/sales.duckdb" "SELECT 1 AS x" "/data/out/r.json")
            = SqlConnect DuckDB "/data/sales.duckdb" :: t.
Proof. eexists. reflexivity. Qed.

(** C10: [B5] always returns; it returns [None] exactly when a path is
    rejected or the body raised an exception that the handler caught; a
    run whose steps all go through and whose query yields no row returns
    the empty list, which is not [None]. *)
Theorem B5_None_only_on_failure (w : World) (db_path query output_filename : string) :
  (exists r, outcome (B5 w db_path query output_filename) = inr r)
  /\ (outcome (B5 w db_path query output_filename) = inr None
      <-> (outcome (guard2_fails db_path output_filename) = inr true
           \/ (outcome (guard2_fails db_path output_filename) = inr false
               /\ exists e, outcome (B5_body w db_path query output_filename) = inl e)))
  /\ (forall cur names jresults,
         outcome (guard2_fails db_path output_filename) = inr false ->
         B5_steps_ok w db_path query output_filename cur names jresults ->
         fetchall cur = [] ->
         outcome (B5 w db_path query output_filename) = inr (Some [])
         /\ Some (@nil row) <> None).
Proof.
  rewrite (outcome_guard2_fails db_path output_filename).
  destruct (guard_ok db_path) eqn:Ha; [destruct (guard_ok output_filename) eqn:Hb|].
  - (* both accepted *)
    cbn [negb orb].
    destruct (@B5_cases w db_path query output_filename Ha Hb)
      as [(e & He & E)|(cur & names & jres & Hok & E)].
    + rewrite E. cbn. split; [eexists; reflexivity|]. split.
      * split; [intros _; right; split; [reflexivity|exists e; exact He]|reflexivity].
      * intros cur names jres _ Hok Hrows.
        pose proof (B5_body_complete Hok) as Hrun. rewrite Hrun in He. discriminate.
    + rewrite E. pose proof (B5_body_complete Hok) as Hrun.
      remember (B5_body w db_path query output_filename) as body eqn:Hbody.
      cbn. split; [eexists; reflexivity|]. split.
      * split; [discriminate|].
        intros [H|[_ [e He]]]; [discriminate|].
        rewrite Hrun in He. discriminate.
      * intros cur' names' jres' _ Hok' Hrows.
        split; [|discriminate].
        destruct Hok as (_ & Hex & _). destruct Hok' as (_ & Hex' & _).
        rewrite Hex in Hex'. injection Hex' as ->. rewrite Hrows. reflexivity.
  - (* output path rejected *)
    unfold B5. rewrite guard2_fails_pure, Ha, Hb. cbn.
    split; [eexists; reflexivity|]. split.
    + split; [intros _; left; reflexivity|reflexivity].
    + intros cur names jres H. discriminate.
  - (* database path rejected *)
    unfold B5. rewrite guard2_fails_pure, Ha. cbn.
    split; [eexists; reflexivity|]. split.
    + split; [intros _; left; reflexivity|reflexivity].
    + intros cur names jres H. discriminate.
Qed.

Lemma B5_None_only_on_failure_witness :
  outcome (B5 Demo.world "/data/app.db" "SELECT 1 AS x WHERE 0" "/data/out/empty.json")
  = inr (Some [])
  /\ Some (@nil row) <> None.
Proof.
  apply (proj2 (proj2 (B5_None_only_on_failure Demo.world "/data/app.db"
                         "SELECT 1 AS x WHERE 0" "/data/out/empty.json"))
           (mkCursor [] (Some ["x"])) ["x"] (JArr []));
    [reflexivity | repeat split | reflexivity].
Defined.

(** A statement without a result set has no [description]: the list
    comprehension of line 110 raises and the call returns [None], after
    the output file was opened for writing. *)
Lemma B5_statement_without_result_set :
  B5 Demo.world "/data/app.db" "CREATE TABLE t (x)" "/data/out/ddl.json"
  = (inr None,
     [SqlConnect Sqlite3 "/data/app.db";
      SqlExecute "CREATE TABLE t (x)";
      Makedirs "/data/out";
      OpenWrite "/data/out/ddl.json";
      Log ERROR "Error executing SQL query: 'NoneType' object is not iterable"]).
Proof. reflexivity. Qed.

(** An output name without a directory part makes [os.makedirs] raise. *)
Lemma B5_bare_output_name :
  B5 Demo.world "/data/app.db" "SELECT 1 AS x" "result.json"
  = (inr None,
     [SqlConnect Sqlite3 "/data/app.db";
      SqlExecute "SELECT 1 AS x";
      Makedirs "";
      Log ERROR "Error executing SQL query: [Errno 2] No such file or directory: ''"]).
Proof. reflexivity. Qed.

(** ** The Markdown task *)










(** ** The CSV filter endpoint *)

Section FilterCsvFacts.
Variables cell scalar : Type.
Variable py_eq : cell -> scalar -> bool.
Variable pd : Pandas cell.
Variable json_compliant : cell -> bool.

Lemma B10_rejected (request : FilterRequest scalar) :
  guard_ok (csv_path request) = false ->
  B10 py_eq pd request
  = (inl (HTTPException 403 "Access denied: Path must be within /data directory"), []).
Proof.
  intros H. unfold B10. rewrite B12s_pure, H. reflexivity.
Qed.

Lemma B10_accepted (request : FilterRequest scalar) :
  guard_ok (csv_path request) = true ->
  B10 py_eq pd request
  = try_except (B10_body py_eq pd request)
      (fun e => raise (HTTPException 400 (exn_str e))).
Proof.
  intros H. unfold B10. rewrite B12s_pure, H. cbn.
  destruct (try_except _ _) as [r t]. reflexivity.
Qed.

Lemma reply_of_rows (l : list (record cell)) :
  encodable json_compliant l = true ->
  reply_of json_compliant (inr l) = mkReply 200 (BodyRecords l).
Proof.
  intros H. unfold reply_of. rewrite H. reflexivity.
Qed.

(** C6 (amended): the endpoint answers 403 when the guard rejects
    [csv_path], 400 with the text of the exception when the body of the
    handler raises, and 200 with the list of row objects when the body
    returns rows that strict JSON can express; 403 is sent for a
    rejected path and for nothing else. *)
Theorem filter_csv_statuses (request : FilterRequest scalar) :
  (outcome (B12s (csv_path request)) = inr false ->
   post_filter_csv py_eq pd json_compliant request
   = mkReply 403 (BodyDetail "Access denied: Path must be within /data directory"))
  /\ (outcome (B12s (csv_path request)) = inr true ->
      forall e, outcome (B10_body py_eq pd request) = inl e ->
                post_filter_csv py_eq pd json_compliant request
                = mkReply 400 (BodyDetail (exn_str e)))
  /\ (outcome (B12s (csv_path request)) = inr true ->
      forall l, outcome (B10_body py_eq pd request) = inr l ->
                encodable json_compliant l = true ->
                post_filter_csv py_eq pd json_compliant request
                = mkReply 200 (BodyRecords l))
  /\ (reply_status (post_filter_csv py_eq pd json_compliant request) = 403%Z
      <-> outcome (B12s (csv_path request)) = inr false).
Proof.
  unfold post_filter_csv.
  assert (Hb : outcome (B12s (csv_path request)) = inr (guard_ok (csv_path request)))
    by (rewrite B12s_pure; reflexivity).
  rewrite Hb. clear Hb.
  destruct (guard_ok (csv_path request)) eqn:Hg.
  - rewrite (B10_accepted request Hg).
    repeat split; try discriminate.
    + intros _ e He. rewrite (try_except_raised _ _ He). reflexivity.
    + intros _ l Hl Henc. rewrite (try_except_ok _ _ Hl).
      unfold outcome in Hl. rewrite Hl. now apply reply_of_rows.
    + destruct (outcome_cases (B10_body py_eq pd request)) as [[e He]|[l Hl]].
      * rewrite (try_except_raised _ _ He). cbn. discriminate.
      * rewrite (try_except_ok _ _ Hl). unfold outcome in Hl. rewrite Hl.
        unfold reply_of. destruct (encodable json_compliant l); cbn; discriminate.
  - rewrite (B10_rejected request Hg).
    repeat split; try discriminate; reflexivity.
Qed.

(** A returned row that strict JSON cannot express is answered with
    500, although the handler returned. *)
Lemma reply_of_unencodable (l : list (record cell)) :
  encodable json_compliant l = false ->
  reply_of json_compliant (inr l) = mkReply 500 BodyServerError.
Proof.
  intros H. unfold reply_of. rewrite H. reflexivity.
Qed.

Lemma lookup_combine (name : string) (cols : list string) :
  forall (r : list cell) (i : nat),
    index_of name cols = Some i ->
    lookup name (combine cols r) = nth_error r i.
Proof.
  induction cols as [|x cols IH]; intros r i; cbn; [discriminate|].
  destruct (String.eqb name x) eqn:E.
  - intros H. injection H as <-. destruct r; cbn; [reflexivity|].
    rewrite E. reflexivity.
  - destruct (index_of name cols) as [j|] eqn:Hj; cbn; [|discriminate].
    intros H. injection H as <-. destruct r as [|c r]; cbn; [reflexivity|].
    rewrite E. apply IH. reflexivity.
Qed.

Lemma select_rows_scalar (cols : list string) (name : string) (i : nat) (v : scalar) :
  index_of name cols = Some i ->
  forall rs : list (list cell),
    to_records cols
      (select_rows rs (map (cell_matches py_eq v) (map (fun r => nth_error r i) rs)))
    = filter (fun r => cell_matches py_eq v (lookup name r)) (to_records cols rs).
Proof.
  intros Hi. unfold to_records.
  induction rs as [|r rs IH]; [reflexivity|].
  cbn [map select_rows filter].
  rewrite (lookup_combine name cols r Hi).
  destruct (cell_matches py_eq v (nth_error r i)); cbn [map];
    rewrite IH; reflexivity.
Qed.

Lemma keys_of_record (cols : list string) :
  forall r : list cell, length r = length cols -> map fst (combine cols r) = cols.
Proof.
  induction cols as [|x cols IH]; intros [|c r] H; cbn in *;
    try reflexivity; try discriminate.
  f_equal. apply IH. now injection H.
Qed.

Lemma spec_records_keys (df : DataFrame cell) (name : string)
      (fv : filter_value scalar) :
  wf_frame df ->
  Forall (fun r => map fst r = columns df) (spec_matching_records py_eq df name fv).
Proof.
  intros [_ Hlen]. unfold spec_matching_records, to_records.
  apply Forall_forall. intros r Hr.
  apply filter_In in Hr. destruct Hr as [Hr _].
  apply in_map_iff in Hr. destruct Hr as (cells & <- & Hin).
  apply keys_of_record.
  rewrite Forall_forall in Hlen. now apply Hlen.
Qed.

(** The body of the handler on a loaded frame and a scalar value. *)
Lemma B10_body_scalar (request : FilterRequest scalar) (df : DataFrame cell)
      (v : scalar) (i : nat) :
  pd_import pd = None ->
  pd_read_csv pd (csv_path request) = inr df ->
  filter_value_of request = FScalar v ->
  index_of (filter_column request) (columns df) = Some i ->
  B10_body py_eq pd request
  = (inr (spec_matching_records py_eq df (filter_column request) (FScalar v)),
     [ReadCsv (csv_path request)]).
Proof.
  intros Hi Hr Hv Hc. unfold B10_body, import_module, df_getitem.
  unfold bind, perform, lift, ret.
  rewrite Hi, Hr, Hc, Hv. cbn.
  rewrite (select_rows_scalar (columns df) (filter_column request) v Hc).
  reflexivity.
Qed.

(** C7 (amended): on success with a scalar filter value, the handler
    returns exactly the records of the loaded frame whose entry under
    the filter column equals the value, in the order of the frame, and
    the keys of every returned record are the columns of the frame in
    their order. *)
Theorem filter_csv_scalar_rows (request : FilterRequest scalar)
        (df : DataFrame cell) (v : scalar) (l : list (record cell)) :
  pd_read_csv pd (csv_path request) = inr df ->
  wf_frame df ->
  filter_value_of request = FScalar v ->
  outcome (B10 py_eq pd request) = inr l ->
  l = spec_matching_records py_eq df (filter_column request) (FScalar v)
  /\ Forall (fun r => map fst r = columns df) l.
Proof.
  intros Hr Hwf Hv Hl.
  assert (E : l = spec_matching_records py_eq df (filter_column request) (FScalar v)).
  { destruct (guard_ok (csv_path request)) eqn:Hg.
    - rewrite (B10_accepted request Hg) in Hl.
      destruct (pd_import pd) as [e|] eqn:Hi.
      + unfold B10_body, import_module, bind, lift in Hl. rewrite Hi in Hl.
        discriminate.
      + destruct (index_of (filter_column request) (columns df)) as [i|] eqn:Hc.
        * rewrite (B10_body_scalar request Hi Hr Hv Hc) in Hl.
          cbn in Hl. now injection Hl.
        * unfold B10_body, import_module, df_getitem, bind, perform, lift in Hl.
          rewrite Hi, Hr, Hc in Hl. discriminate.
    - rewrite (B10_rejected request Hg) in Hl. discriminate. }
  split; [exact E|]. rewrite E. now apply spec_records_keys.
Qed.

(** Such a call succeeds whenever the path is accepted, the file
    loads and the column exists. *)
Lemma filter_csv_scalar_succeeds (request : FilterRequest scalar)
      (df : DataFrame cell) (v : scalar) :
  guard_ok (csv_path request) = true ->
  pd_import pd = None ->
  pd_read_csv pd (csv_path request) = inr df ->
  filter_value_of request = FScalar v ->
  In (filter_column request) (columns df) ->
  outcome (B10 py_eq pd request)
  = inr (spec_matching_records py_eq df (filter_column request) (FScalar v)).
Proof.
  intros Hg Hi Hr Hv Hin.
  assert (exists i, index_of (filter_column request) (columns df) = Some i) as [i Hc].
  { induction (columns df) as [|x cols IH]; [destruct Hin|]. cbn.
    destruct (String.eqb_spec (filter_column request) x) as [_|Hne]; [eauto|].
    destruct Hin as [->|Hin]; [congruence|].
    destruct (IH Hin) as [j ->]. cbn. eauto. }
  rewrite (B10_accepted request Hg).
  rewrite (B10_body_scalar request Hi Hr Hv Hc). reflexivity.
Qed.

End FilterCsvFacts.

Lemma Demo_frame_wf : wf_frame Demo.frame.
Proof.
  split.
  - repeat constructor; cbn; intuition discriminate.
  - repeat constructor.
Qed.

Lemma filter_csv_statuses_witness :
  post_filter_csv String.eqb Demo.pandas Demo.any_text
    (mkRequest "/etc/shadow.csv" "status" (FScalar "active"))
  = mkReply 403 (BodyDetail "Access denied: Path must be within /data directory").
Proof.
  apply (proj1 (filter_csv_statuses String.eqb Demo.pandas Demo.any_text
                  (mkRequest "/etc/shadow.csv" "status" (FScalar "active")))).
  reflexivity.
Defined.

(** C6 as stated fails when a returned row holds an empty cell: the
    guard accepts the path, the body of the handler raises nothing and
    returns the matching rows, and the reply is neither 200 nor 400 but
    500, because the NaN of the empty cell cannot be encoded. *)
Lemma filter_csv_nan_counterexample :
  outcome (B12s "/data/users.csv") = inr true
  /\ outcome (B10 Demo.text_eq Demo.sparse_pandas
                (mkRequest "/data/users.csv" "status" (FScalar "active")))
     = inr [[("user", Some "ann"); ("status", Some "active")];
            [("user", None); ("status", Some "active")]]
  /\ post_filter_csv Demo.text_eq Demo.sparse_pandas Demo.not_nan
       (mkRequest "/data/users.csv" "status" (FScalar "active"))
     = mkReply 500 BodyServerError.
Proof.
  repeat split.
Qed.

Lemma filter_csv_scalar_rows_witness :
  [[("user", "ann"); ("status", "active")]; [("user", "cy"); ("status", "active")]]
  = spec_matching_records String.eqb Demo.frame "status" (FScalar "active")
  /\ Forall (fun r => map fst r = ["user"; "status"])
            [[("user", "ann"); ("status", "active")];
             [("user", "cy"); ("status", "active")]].
Proof.
  apply (@filter_csv_scalar_rows string string String.eqb Demo.pandas
           (mkRequest "/data/users.csv" "status" (FScalar "active"))
           Demo.frame "active").
  - reflexivity.
  - exact Demo_frame_wf.
  - reflexivity.
  - reflexivity.
Defined.

(** C7 as stated fails for an array: the array is compared with the
    column position by position, so the first record is returned although
    its status is a string and not the array. *)
Lemma filter_csv_array_counterexample :
  outcome (B10 String.eqb Demo.pandas
             (mkRequest "/data/users.csv" "status"
                (FArray ["active"; "active"; "pending"])))
  = inr [[("user", "ann"); ("status", "active")]]
  /\ [[("user", "ann"); ("status", "active")]]
     <> spec_matching_records String.eqb Demo.frame "status"
          (FArray ["active"; "active"; "pending"]).
Proof.
  split; [reflexivity|discriminate].
Qed.

(** An array of another length is a 400. *)
Lemma filter_csv_array_length :
  post_filter_csv String.eqb Demo.pandas Demo.any_text
    (mkRequest "/data/users.csv" "status" (FArray ["active"]))
  = mkReply 400 (BodyDetail "('Lengths must match to compare', (3,), (1,))").
Proof. reflexivity. Qed.

(** A missing column is a 400 carrying the text of the [KeyError]. *)
Lemma filter_csv_missing_column :
  post_filter_csv String.eqb Demo.pandas Demo.any_text
    (mkRequest "/data/users.csv" "state" (FScalar "active"))
  = mkReply 400 (BodyDetail "'state'").
Proof. reflexivity. Qed.


(** * Further properties *)

(** ** The guard on raw strings *)

Lemma startswith_slash (s : string) :
  PyStr.startswith s "/"
  = match s with String c _ => PyStr.is_slash c | EmptyString => false end.
Proof.
  destruct s as [|c s]; [reflexivity|].
  unfold PyStr.startswith, PyStr.is_slash, PyStr.slash.
  rewrite prefix_cons, prefix_empty.
  destruct (Ascii.ascii_dec "/"%char c) as [<-|N]; [reflexivity|].
  symmetry. apply Ascii.eqb_neq. congruence.
Qed.

(** X1: a [str] that does not begin with a slash is accepted, whatever
    segments it holds, and nothing is logged. *)
Theorem B12_accepts_relative_str (s : string) :
  PyStr.startswith s "/" = false -> B12s s = (inr true, []).
Proof.
  intros H. rewrite B12s_pure. unfold guard_ok.
  rewrite parse_is_absolute, H. reflexivity.
Qed.

Lemma B12_accepts_relative_str_witness :
  B12s "../../etc/passwd" = (inr true, []).
Proof.
  apply (B12_accepts_relative_str "../../etc/passwd"). reflexivity.
Defined.

Lemma split_cons (sep : ascii) (s : string) :
  exists h t, PyStr.split sep s = h :: t.
Proof.
  destruct s as [|c s]; cbn; [eauto|].
  destruct (Ascii.eqb c sep); [eauto|].
  destruct (PyStr.split sep s); eauto.
Qed.

Lemma split_plain_char (sep c : ascii) (s h : string) (t : list string) :
  Ascii.eqb c sep = false ->
  PyStr.split sep s = h :: t ->
  PyStr.split sep (String c s) = String c h :: t.
Proof.
  intros Hc Hs. cbn. rewrite Hc, Hs. reflexivity.
Qed.

Lemma join_head (sep x : string) (l : list string) :
  exists rest, PyStr.join sep (x :: l) = (x ++ rest)%string.
Proof.
  destruct l as [|y l]; cbn.
  - exists EmptyString. clear. induction x; cbn; congruence.
  - eexists. reflexivity.
Qed.

Lemma data_prefix_accepted (rest : string) :
  B12s ("/data" ++ rest) = (inr true, []).
Proof.
  rewrite B12s_pure. unfold guard_ok.
  rewrite parse_is_absolute, startswith_slash. cbn [append PyStr.is_slash].
  change (PyStr.is_slash "/"%char) with true. cbv iota.
  unfold pathlib.parse. cbn [append PyStr.is_empty posixpath.splitroot].
  change (PyStr.is_slash "/"%char) with true.
  change (PyStr.is_slash "d"%char) with false. cbv iota.
  destruct (split_cons PyStr.slash rest) as (h & t & Hs).
  rewrite (@split_plain_char PyStr.slash "d" _ (String "a" (String "t" (String "a" h))) t);
    [|reflexivity|].
  2:{ apply split_plain_char; [reflexivity|].
      apply split_plain_char; [reflexivity|].
      apply split_plain_char; [reflexivity|exact Hs]. }
  cbn [filter pathlib.keep_segment PyStr.is_empty negb andb String.eqb].
  change (Ascii.eqb "d" ".") with false. cbn [negb].
  unfold pathlib.str. cbn [pathlib.root pathlib.tail PyStr.is_empty].
  destruct (join_head "/" (String "d" (String "a" (String "t" (String "a" h))))
              (filter pathlib.keep_segment t)) as [r ->].
  unfold PyStr.startswith, allowed_prefix. cbn [append].
  rewrite !prefix_cons.
  repeat match goal with
         | |- context [Ascii.ascii_dec ?a ?a] =>
             destruct (Ascii.ascii_dec a a) as [_|N]; [|congruence]
         end.
  rewrite prefix_empty. reflexivity.
Qed.

(** X2: every [str] that begins with the five characters [/data] is
    accepted, whatever follows them. *)
Theorem B12_accepts_data_prefix (rest : string) :
  B12s ("/data" ++ rest) = (inr true, []).
Proof.
  exact (data_prefix_accepted rest).
Qed.

(** X3: a [str] that begins with exactly two slashes is rejected, even
    when [data] follows: two leading slashes are a root of their own. *)
Theorem B12_rejects_double_slash (rest : string) :
  PyStr.startswith rest "/" = false ->
  B12s ("//" ++ rest) = (inr false, []).
Proof.
  intros H. rewrite startswith_slash in H.
  rewrite B12s_pure. unfold guard_ok, pathlib.parse.
  cbn [append PyStr.is_empty posixpath.splitroot].
  change (PyStr.is_slash "/"%char) with true. cbv iota.
  assert (E : (match rest with
               | String c2 _ => if PyStr.is_slash c2 then ("/", String "/" rest) else ("//", rest)
               | EmptyString => ("//", rest)
               end) = ("//", rest)).
  { destruct rest as [|c r]; [reflexivity|]. rewrite H. reflexivity. }
  rewrite E. unfold pathlib.is_absolute, pathlib.str.
  cbn [pathlib.root pathlib.tail PyStr.is_empty negb].
  unfold PyStr.startswith, allowed_prefix. cbn [append].
  rewrite !prefix_cons.
  destruct (Ascii.ascii_dec "/" "/") as [_|N]; [|congruence].
  destruct (Ascii.ascii_dec "d" "/") as [D|_]; [discriminate|reflexivity].
Qed.

Lemma B12_rejects_double_slash_witness :
  B12s ("//" ++ "data/in/a.csv") = (inr false, []).
Proof.
  apply (B12_rejects_double_slash "data/in/a.csv"). reflexivity.
Defined.

(** ** What the tasks never do *)

Ltac unfold_tasks :=
  unfold B3, B3_body, B5, B5_body, B6, B6_body, B9, B9_body, B10, B10_body,
    guard2_fails, os_makedirs, open_w, import_module, column_names,
    raise_for_status, df_getitem;
  rewrite ?B12s_pure;
  unfold bind, try_except, perform, perform_, lift, log_info, log_error, ret, raise.

Ltac split_cases :=
  repeat (cbv beta iota;
          match goal with
          | |- context [match ?x with _ => _ end] =>
              lazymatch x with
              | context [match _ with _ => _ end] => fail
              | _ => destruct x eqn:?
              end
          end).

(** X4: no exception leaves [B3], [B5], [B6] or [B9]: whatever the
    libraries and the filesystem do, the call returns a value. *)
Theorem tasks_never_raise (w : World) :
  (forall url save_path headers,
      exists b, outcome (B3 w url save_path headers) = inr b)
  /\ (forall db_path query output_filename,
         exists r, outcome (B5 w db_path query output_filename) = inr r)
  /\ (forall url output_filename selector,
         exists b, outcome (B6 w url output_filename selector) = inr b)
  /\ (forall md_path output_path extras,
         exists b, outcome (B9 w md_path output_path extras) = inr b).
Proof.
  repeat split; intros; unfold_tasks; split_cases; eexists; reflexivity.
Qed.

Ltac check_trace :=
  unfold trace, outcome;
  cbn [fst snd app confined output_never_opened opens_for_output forallb existsb
       is_sql_close is_sql_connect andb orb negb];
  rewrite ?String.eqb_refl;
  cbn [andb orb negb];
  try reflexivity.


(** ** Output names without a directory part *)

Lemma existsb_rev_eq {A} (f : A -> bool) (l : list A) :
  existsb f (List.rev l) = existsb f l.
Proof.
  induction l as [|x l IH]; [reflexivity|].
  cbn. rewrite existsb_app, IH. cbn. rewrite orb_false_r. apply orb_comm.
Qed.

Lemma drop_while_no_slash (l : list ascii) :
  existsb PyStr.is_slash l = false -> PyStr.drop_while PyStr.not_slash l = [].
Proof.
  induction l as [|c l IH]; [reflexivity|]. cbn. unfold PyStr.not_slash.
  destruct (PyStr.is_slash c); cbn; [discriminate|exact IH].
Qed.

Lemma dirname_bare (p : string) : has_slash p = false -> parent_dir p = EmptyString.
Proof.
  unfold has_slash, parent_dir, posixpath.dirname. intros H.
  rewrite drop_while_no_slash; [reflexivity|].
  rewrite existsb_rev_eq. exact H.
Qed.

Lemma guard_ok_bare (p : string) : has_slash p = false -> guard_ok p = true.
Proof.
  intros H. unfold guard_ok. rewrite parse_is_absolute, startswith_slash.
  destruct p as [|c p]; [reflexivity|].
  unfold has_slash in H. cbn in H. apply orb_false_elim in H as [-> _].
  reflexivity.
Qed.

(** X6: an output name without a slash is accepted by the guard, and
    the task then fails on it: [os.makedirs] is called with the empty
    name and raises, so the task returns its failure value and never
    opens the output file.  [B5] has by then connected to the database
    and executed the statement, whose result is lost. *)
Theorem bare_output_name_fails (w : World) (out : string) :
  has_slash out = false ->
  (forall url headers,
      outcome (B3 w url out headers) = inr false
      /\ output_never_opened (trace (B3 w url out headers)) = true)
  /\ (forall db_path query,
         outcome (B5 w db_path query out) = inr None
         /\ output_never_opened (trace (B5 w db_path query out)) = true)
  /\ (forall db_path query cur,
         guard_ok db_path = true ->
         sql_connect w (select_engine db_path) db_path = None ->
         sql_execute w (select_engine db_path) db_path query = inr cur ->
         B5 w db_path query out
         = (inr None,
            [SqlConnect (select_engine db_path) db_path;
             SqlExecute query;
             Makedirs EmptyString;
             Log ERROR
               "Error executing SQL query: [Errno 2] No such file or directory: ''"]))
  /\ (forall url selector,
         outcome (B6 w url out selector) = inr false
         /\ output_never_opened (trace (B6 w url out selector)) = true)
  /\ (forall md_path extras,
         outcome (B9 w md_path out extras) = inr false
         /\ output_never_opened (trace (B9 w md_path out extras)) = true).
Proof.
  intros H.
  pose proof (guard_ok_bare out H) as Hg.
  pose proof (dirname_bare out H) as Hd.
  split; [|split; [|split; [|split]]].
  - split; unfold_tasks; rewrite ?Hg, ?Hd;
      cbn [PyStr.is_empty negb]; split_cases; check_trace.
  - split; unfold_tasks; rewrite ?Hg, ?Hd;
      cbn [PyStr.is_empty negb]; split_cases; check_trace.
  - intros db_path query cur Ha Hc He. unfold_tasks.
    rewrite Ha, Hg, Hd, Hc, He. reflexivity.
  - split; unfold_tasks; rewrite ?Hg, ?Hd;
      cbn [PyStr.is_empty negb]; split_cases; check_trace.
  - split; unfold_tasks; rewrite ?Hg, ?Hd;
      cbn [PyStr.is_empty negb]; split_cases; check_trace.
Qed.

Lemma bare_output_name_fails_witness :
  B5 Demo.world "/data/app.db" "SELECT 1 AS x" "result.json"
  = (inr None,
     [SqlConnect (select_engine "/data/app.db") "/data/app.db";
      SqlExecute "SELECT 1 AS x";
      Makedirs EmptyString;
      Log ERROR
        "Error executing SQL query: [Errno 2] No such file or directory: ''"]).
Proof.
  apply (proj1 (proj2 (proj2 (@bare_output_name_fails Demo.world "result.json" eq_refl)))
           "/data/app.db" "SELECT 1 AS x" (mkCursor [[SqlInt 1]] (Some ["x"])));
    reflexivity.
Defined.

(** ** Fetch and save *)

Lemma status_error (r : http_response) :
  (400 <= resp_status r < 600)%Z ->
  raise_for_status r = inl (PyExn "HTTPError" (resp_error_text r)).
Proof.
  intros [H1 H2]. unfold raise_for_status.
  apply Z.leb_le in H1. apply Z.ltb_lt in H2. rewrite H1, H2. reflexivity.
Qed.

Lemma status_fine (r : http_response) :
  (resp_status r < 400 \/ 600 <= resp_status r)%Z ->
  raise_for_status r = inr tt.
Proof.
  intros H. unfold raise_for_status.
  destruct (400 <=? resp_status r)%Z eqn:H1; [|reflexivity].
  destruct (resp_status r <? 600)%Z eqn:H2; [|reflexivity].
  apply Z.leb_le in H1. apply Z.ltb_lt in H2. lia.
Qed.

(** X7: when the server answers with a status from 400 to 599, [B3] and
    [B6] return [False] after the request alone: no directory is created
    and no file is opened, and the text of the HTTP error is logged. *)
Theorem http_error_status_stops_task (w : World) (url out : string)
        (headers : option (list (string * string))) (resp : http_response) :
  guard_ok out = true ->
  (400 <= resp_status resp < 600)%Z ->
  (requests_get w url headers = inr resp ->
   B3 w url out headers
   = (inr false,
      [HttpGet url headers 30;
       Log ERROR ("Error fetching API data: " ++ resp_error_text resp)]))
  /\ (forall selector,
         bs4_import w = None ->
         requests_get w url None = inr resp ->
         B6 w url out selector
         = (inr false,
            [HttpGet url None 30;
             Log ERROR ("Error scraping website: " ++ resp_error_text resp)])).
Proof.
  intros Hg Hs. pose proof (status_error resp Hs) as He. split.
  - intros Hr. unfold B3, B3_body. rewrite B12s_pure, Hg.
    unfold bind, try_except, perform, lift, ret, log_error.
    rewrite Hr, He. reflexivity.
  - intros selector Hi Hr. unfold B6, B6_body, import_module. rewrite B12s_pure, Hg.
    unfold bind, try_except, perform, lift, ret, log_error.
    rewrite Hi, Hr, He. reflexivity.
Qed.

Lemma http_error_status_stops_task_witness :
  B3 (Cases.with_response Cases.not_found)
     "http://example.org/missing" "/data/out/feed.json" None
  = (inr false,
     [HttpGet "http://example.org/missing" None 30;
      Log ERROR ("Error fetching API data: " ++ resp_error_text Cases.not_found)]).
Proof.
  refine (proj1 (@http_error_status_stops_task (Cases.with_response Cases.not_found)
                   "http://example.org/missing" "/data/out/feed.json" None
                   Cases.not_found eq_refl _) eq_refl).
  cbn. lia.
Defined.

(** X8: with the path accepted, the request answered with a status
    outside 400-599 and every file operation going through, [B3] writes
    the parsed JSON body with indent 2 when the content type contains
    [application/json], and the raw body otherwise; a missing
    content-type header counts as the empty string. *)
Theorem B3_content_type_dispatch (w : World) (url save_path : string)
        (headers : option (list (string * string))) (resp : http_response) :
  guard_ok save_path = true ->
  requests_get w url headers = inr resp ->
  (resp_status resp < 400 \/ 600 <= resp_status resp)%Z ->
  PyStr.is_empty (parent_dir save_path) = false ->
  fs_makedirs w (parent_dir save_path) = None ->
  fs_open_write w save_path = None ->
  fs_write w save_path = None ->
  (forall doc,
      PyStr.contains "application/json" (content_type_of resp) = true ->
      resp_json resp = inr doc ->
      B3 w url save_path headers
      = (inr true,
         [HttpGet url headers 30;
          Makedirs (parent_dir save_path);
          OpenWrite save_path;
          WriteJson save_path doc 2;
          Log INFO ("Successfully saved API data to " ++ save_path)]))
  /\ (PyStr.contains "application/json" (content_type_of resp) = false ->
      B3 w url save_path headers
      = (inr true,
         [HttpGet url headers 30;
          Makedirs (parent_dir save_path);
          OpenWrite save_path;
          WriteBytes save_path (resp_content resp);
          Log INFO ("Successfully saved API data to " ++ save_path)])).
Proof.
  intros Hg Hr Hs Hd Hm Ho Hw. pose proof (status_fine resp Hs) as Hf.
  unfold content_type_of.
  split; [intros doc Hc Hj|intros Hc];
    unfold B3, B3_body, os_makedirs, open_w; rewrite B12s_pure, Hg;
    unfold bind, try_except, perform, perform_, lift, ret, log_info;
    rewrite Hr, Hf, Hd, Hm, Hc, Ho, ?Hj, Hw; reflexivity.
Qed.

Lemma B3_content_type_dispatch_witness :
  B3 Demo.world "http://example.org/feed" "/data/out/feed.bin" None
  = (inr true,
     [HttpGet "http://example.org/feed" None 30;
      Makedirs (parent_dir "/data/out/feed.bin");
      OpenWrite "/data/out/feed.bin";
      WriteBytes "/data/out/feed.bin" (resp_content Demo.response);
      Log INFO ("Successfully saved API data to " ++ "/data/out/feed.bin")]).
Proof.
  refine (proj2 (@B3_content_type_dispatch Demo.world "http://example.org/feed"
                   "/data/out/feed.bin" None Demo.response
                   eq_refl eq_refl _ eq_refl eq_refl eq_refl eq_refl) eq_refl).
  cbn. lia.
Defined.

(** X9: when the content type announces JSON and the body does not
    parse, [B3] returns [False] after the output file was opened for
    writing: the file is left truncated and nothing is written to it. *)
Theorem B3_unparsable_json_body (w : World) (url save_path : string)
        (headers : option (list (string * string))) (resp : http_response) (e : exn) :
  guard_ok save_path = true ->
  requests_get w url headers = inr resp ->
  (resp_status resp < 400 \/ 600 <= resp_status resp)%Z ->
  PyStr.is_empty (parent_dir save_path) = false ->
  fs_makedirs w (parent_dir save_path) = None ->
  fs_open_write w save_path = None ->
  PyStr.contains "application/json" (content_type_of resp) = true ->
  resp_json resp = inl e ->
  B3 w url save_path headers
  = (inr false,
     [HttpGet url headers 30;
      Makedirs (parent_dir save_path);
      OpenWrite save_path;
      Log ERROR ("Error fetching API data: " ++ exn_str e)])
  /\ wrote_to save_path (trace (B3 w url save_path headers)) = false.
Proof.
  intros Hg Hr Hs Hd Hm Ho Hc Hj. pose proof (status_fine resp Hs) as Hf.
  unfold content_type_of in Hc.
  assert (E : B3 w url save_path headers
              = (inr false,
                 [HttpGet url headers 30;
                  Makedirs (parent_dir save_path);
                  OpenWrite save_path;
                  Log ERROR ("Error fetching API data: " ++ exn_str e)])).
  { unfold B3, B3_body, os_makedirs, open_w. rewrite B12s_pure, Hg.
    unfold bind, try_except, perform, perform_, lift, ret, log_error.
    rewrite Hr, Hf, Hd, Hm, Hc, Ho, Hj. reflexivity. }
  split; [exact E|]. rewrite E. reflexivity.
Qed.

Lemma B3_unparsable_json_body_witness :
  B3 (Cases.with_response Cases.html_as_json)
     "http://example.org/feed" "/data/out/feed.json" None
  = (inr false,
     [HttpGet "http://example.org/feed" None 30;
      Makedirs (parent_dir "/data/out/feed.json");
      OpenWrite "/data/out/feed.json";
      Log ERROR ("Error fetching API data: "
                 ++ exn_str (PyExn "JSONDecodeError"
                               "Expecting value: line 1 column 1 (char 0)"))])
  /\ wrote_to "/data/out/feed.json"
       (trace (B3 (Cases.with_response Cases.html_as_json)
                  "http://example.org/feed" "/data/out/feed.json" None)) = false.
Proof.
  refine (@B3_unparsable_json_body (Cases.with_response Cases.html_as_json)
            "http://example.org/feed" "/data/out/feed.json"
            None Cases.html_as_json _ eq_refl eq_refl _ eq_refl eq_refl eq_refl
            eq_refl eq_refl).
  cbn. lia.
Defined.

(** X10: a task reports success only after its output was written: when
    [B3], [B6] or [B9] returns [True], or [B5] returns rows, the trace
    holds a write of content to the output path and the filesystem
    accepted it. *)
Theorem success_means_written (w : World) :
  (forall url save_path headers,
      outcome (B3 w url save_path headers) = inr true ->
      wrote_to save_path (trace (B3 w url save_path headers)) = true
      /\ fs_write w save_path = None)
  /\ (forall db_path query output_filename results,
         outcome (B5 w db_path query output_filename) = inr (Some results) ->
         wrote_to output_filename (trace (B5 w db_path query output_filename)) = true
         /\ fs_write w output_filename = None)
  /\ (forall url output_filename selector,
         outcome (B6 w url output_filename selector) = inr true ->
         wrote_to output_filename (trace (B6 w url output_filename selector)) = true
         /\ fs_write w output_filename = None)
  /\ (forall md_path output_path extras,
         outcome (B9 w md_path output_path extras) = inr true ->
         wrote_to output_path (trace (B9 w md_path output_path extras)) = true
         /\ fs_write w output_path = None).
Proof.
  repeat apply conj; intros *; unfold_tasks; split_cases;
    unfold outcome, trace; cbn [fst snd app];
    intros H; try discriminate H;
    (split; [|reflexivity]);
    cbn [wrote_to existsb]; rewrite String.eqb_refl; cbn [orb];
    rewrite ?orb_true_r; reflexivity.
Qed.

Lemma success_means_written_witness :
  wrote_to "/data/site/readme.html"
    (trace (B9 Demo.world "/data/docs/readme.md" "/data/site/readme.html" None)) = true
  /\ fs_write Demo.world "/data/site/readme.html" = None.
Proof.
  apply (proj2 (proj2 (proj2 (success_means_written Demo.world)))
           "/data/docs/readme.md" "/data/site/readme.html" None).
  reflexivity.
Defined.

(** ** Run a query *)

(** X11: with both paths accepted and the connection established, the
    connection is closed exactly when [B5] returns rows: on every
    failing path after the connect (bad SQL, missing description,
    unwritable output) it is left open. *)
Theorem B5_closes_only_on_success (w : World) (db_path query output_filename : string) :
  guard_ok db_path = true -> guard_ok output_filename = true ->
  sql_connect w (select_engine db_path) db_path = None ->
  existsb is_sql_connect (trace (B5 w db_path query output_filename)) = true
  /\ (existsb is_sql_close (trace (B5 w db_path query output_filename)) = true
      <-> exists results, outcome (B5 w db_path query output_filename) = inr (Some results)).
Proof.
  intros Ha Hb Hc. unfold_tasks. rewrite Ha, Hb, Hc. cbn [negb].
  split_cases; check_trace;
    (split; [reflexivity|]);
    (split; [intros H; try discriminate H; eexists; reflexivity
            |intros [rows H]; try discriminate H; reflexivity]).
Qed.

Lemma B5_closes_only_on_success_witness :
  existsb is_sql_connect
    (trace (B5 Demo.world "/data/app.db" "CREATE TABLE t (x)" "/data/out/ddl.json")) = true
  /\ (existsb is_sql_close
        (trace (B5 Demo.world "/data/app.db" "CREATE TABLE t (x)" "/data/out/ddl.json"))
      = true
      <-> exists results,
          outcome (B5 Demo.world "/data/app.db" "CREATE TABLE t (x)" "/data/out/ddl.json")
          = inr (Some results)).
Proof.
  apply (@B5_closes_only_on_success Demo.world "/data/app.db" "CREATE TABLE t (x)"
           "/data/out/ddl.json"); reflexivity.
Defined.

(** X12: a statement that yields no result set ([description] is
    [None]) makes [B5] return [None] although it was executed; by then
    the output file has been opened for writing and nothing is written
    to it. *)
Theorem B5_statement_without_description (w : World)
        (db_path query output_filename : string) (cur : cursor) :
  guard_ok db_path = true -> guard_ok output_filename = true ->
  sql_connect w (select_engine db_path) db_path = None ->
  sql_execute w (select_engine db_path) db_path query = inr cur ->
  PyStr.is_empty (parent_dir output_filename) = false ->
  fs_makedirs w (parent_dir output_filename) = None ->
  fs_open_write w output_filename = None ->
  description cur = None ->
  B5 w db_path query output_filename
  = (inr None,
     [SqlConnect (select_engine db_path) db_path;
      SqlExecute query;
      Makedirs (parent_dir output_filename);
      OpenWrite output_filename;
      Log ERROR "Error executing SQL query: 'NoneType' object is not iterable"]).
Proof.
  intros Ha Hb Hc He Hd Hm Ho Hn. unfold_tasks.
  rewrite Ha, Hb, Hc, He, Hd, Hm, Ho, Hn. reflexivity.
Qed.

Lemma B5_statement_without_description_witness :
  B5 Demo.world "/data/app.db" "CREATE TABLE t (x)" "/data/out/ddl.json"
  = (inr None,
     [SqlConnect (select_engine "/data/app.db") "/data/app.db";
      SqlExecute "CREATE TABLE t (x)";
      Makedirs (parent_dir "/data/out/ddl.json");
      OpenWrite "/data/out/ddl.json";
      Log ERROR "Error executing SQL query: 'NoneType' object is not iterable"]).
Proof.
  apply (@B5_statement_without_description Demo.world "/data/app.db"
           "CREATE TABLE t (x)" "/data/out/ddl.json" (mkCursor [] None));
    reflexivity.
Defined.

Lemma json_of_list_plain (r : row) :
  forallb serialisable r = true ->
  json_of_list json_of_sqlval r = inr (map json_of_plain r).
Proof.
  induction r as [|v r IH]; [reflexivity|]. cbn [forallb]. intros H.
  apply andb_true_iff in H as [Hv Hr]. cbn [json_of_list map].
  rewrite (IH Hr). destruct v; try reflexivity; discriminate.
Qed.

Lemma json_of_list_opaque (r : row) :
  forallb serialisable r = false ->
  exists t, In (SqlOpaque t) r
            /\ json_of_list json_of_sqlval r
               = inl (PyExn "TypeError"
                        ("Object of type " ++ t ++ " is not JSON serializable")).
Proof.
  induction r as [|v r IH]; [discriminate|]. cbn [forallb]. intros H.
  destruct v as [| z | b | s | t]; cbn [serialisable andb] in H;
    try (destruct (IH H) as (t & Hin & E); exists t; split; [now right|];
         cbn [json_of_list json_of_sqlval]; rewrite E; reflexivity).
  exists t. split; [now left|reflexivity].
Qed.

Lemma json_of_rows_plain (rs : list row) :
  forallb (forallb serialisable) rs = true ->
  json_of_rows rs = inr (JArr (map (fun r => JArr (map json_of_plain r)) rs)).
Proof.
  unfold json_of_rows. intros H.
  assert (E : json_of_list json_of_row rs
              = inr (map (fun r => JArr (map json_of_plain r)) rs)).
  { induction rs as [|r rs IH]; [reflexivity|]. cbn [forallb] in H.
    apply andb_true_iff in H as [Hr Hrs]. cbn [json_of_list map].
    unfold json_of_row at 1. rewrite (json_of_list_plain r Hr), (IH Hrs). reflexivity. }
  rewrite E. reflexivity.
Qed.

Lemma json_of_rows_opaque (rs : list row) :
  forallb (forallb serialisable) rs = false ->
  exists t r, In r rs /\ In (SqlOpaque t) r
              /\ json_of_rows rs
                 = inl (PyExn "TypeError"
                          ("Object of type " ++ t ++ " is not JSON serializable")).
Proof.
  unfold json_of_rows. induction rs as [|r rs IH]; [discriminate|].
  cbn [forallb]. intros H. cbn [json_of_list]. unfold json_of_row at 1.
  destruct (forallb serialisable r) eqn:Hr.
  - cbn [andb] in H. destruct (IH H) as (t & r' & Hin & Ht & E).
    exists t, r'. split; [now right|]. split; [exact Ht|].
    rewrite (json_of_list_plain r Hr).
    destruct (json_of_list json_of_row rs); [exact E|discriminate].
  - destruct (json_of_list_opaque r Hr) as (t & Ht & E).
    exists t, r. split; [now left|]. split; [exact Ht|]. rewrite E. reflexivity.
Qed.

(** X13: when every fetched value is one the JSON encoder accepts
    (null, integer, real, text) and every other step goes through, [B5]
    returns the fetched rows and the [results] entry of the written
    object mirrors them: one array per row, one element per column, in
    order. *)
Theorem B5_results_mirror_rows (w : World) (db_path query output_filename : string)
        (cur : cursor) (names : list string) :
  guard_ok db_path = true -> guard_ok output_filename = true ->
  sql_connect w (select_engine db_path) db_path = None ->
  sql_execute w (select_engine db_path) db_path query = inr cur ->
  PyStr.is_empty (parent_dir output_filename) = false ->
  fs_makedirs w (parent_dir output_filename) = None ->
  fs_open_write w output_filename = None ->
  description cur = Some names ->
  fs_write w output_filename = None ->
  forallb (forallb serialisable) (fetchall cur) = true ->
  B5 w db_path query output_filename
  = (inr (Some (fetchall cur)),
     [SqlConnect (select_engine db_path) db_path;
      SqlExecute query;
      Makedirs (parent_dir output_filename);
      OpenWrite output_filename;
      WriteJson output_filename
        (JObj [("query", JStr query);
               ("results",
                JArr (map (fun r => JArr (map json_of_plain r)) (fetchall cur)));
               ("column_names", JArr (map JStr names))]) 2;
      SqlClose;
      Log INFO ("Successfully executed query and saved results to "
                ++ output_filename)]).
Proof.
  intros Ha Hb Hc He Hd Hm Ho Hn Hw Hs. unfold_tasks.
  rewrite Ha, Hb, Hc, He, Hd, Hm, Ho, Hn, (json_of_rows_plain _ Hs), Hw. reflexivity.
Qed.

Lemma B5_results_mirror_rows_witness :
  B5 (Cases.with_cursor (mkCursor [[SqlInt 7; SqlText "ann"; SqlNull]; [SqlInt 8; SqlText "bob"; SqlReal 0]]
                           (Some ["id"; "name"; "score"])))
     "/data/app.db" "SELECT id, name, score FROM t" "/data/out/t.json"
  = (inr (Some [[SqlInt 7; SqlText "ann"; SqlNull]; [SqlInt 8; SqlText "bob"; SqlReal 0]]),
     [SqlConnect Sqlite3 "/data/app.db";
      SqlExecute "SELECT id, name, score FROM t";
      Makedirs "/data/out";
      OpenWrite "/data/out/t.json";
      WriteJson "/data/out/t.json"
        (JObj [("query", JStr "SELECT id, name, score FROM t");
               ("results",
                JArr [JArr [JInt 7; JStr "ann"; JNull]; JArr [JInt 8; JStr "bob"; JFloat 0]]);
               ("column_names", JArr [JStr "id"; JStr "name"; JStr "score"])]) 2;
      SqlClose;
      Log INFO "Successfully executed query and saved results to /data/out/t.json"]).
Proof.
  apply (@B5_results_mirror_rows
           (Cases.with_cursor (mkCursor [[SqlInt 7; SqlText "ann"; SqlNull];
                                         [SqlInt 8; SqlText "bob"; SqlReal 0]]
                                 (Some ["id"; "name"; "score"])))
           "/data/app.db" "SELECT id, name, score FROM t" "/data/out/t.json"
           (mkCursor [[SqlInt 7; SqlText "ann"; SqlNull];
                      [SqlInt 8; SqlText "bob"; SqlReal 0]]
              (Some ["id"; "name"; "score"])) ["id"; "name"; "score"]);
    reflexivity.
Defined.

(** X14: when a fetched value is of a type the JSON encoder refuses
    (a blob, a decimal, a date), [B5] returns [None] although the query
    ran: the output file has been opened for writing, the document is
    not completed, and the type of a refused value is logged. *)
Theorem B5_unserialisable_value (w : World) (db_path query output_filename : string)
        (cur : cursor) (names : list string) :
  guard_ok db_path = true -> guard_ok output_filename = true ->
  sql_connect w (select_engine db_path) db_path = None ->
  sql_execute w (select_engine db_path) db_path query = inr cur ->
  PyStr.is_empty (parent_dir output_filename) = false ->
  fs_makedirs w (parent_dir output_filename) = None ->
  fs_open_write w output_filename = None ->
  description cur = Some names ->
  forallb (forallb serialisable) (fetchall cur) = false ->
  exists t r,
    In r (fetchall cur) /\ In (SqlOpaque t) r
    /\ B5 w db_path query output_filename
       = (inr None,
          [SqlConnect (select_engine db_path) db_path;
           SqlExecute query;
           Makedirs (parent_dir output_filename);
           OpenWrite output_filename;
           Log ERROR ("Error executing SQL query: Object of type " ++ t
                      ++ " is not JSON serializable")]).
Proof.
  intros Ha Hb Hc He Hd Hm Ho Hn Hs.
  destruct (json_of_rows_opaque _ Hs) as (t & r & Hr & Ht & E).
  exists t, r. split; [exact Hr|]. split; [exact Ht|].
  unfold_tasks. rewrite Ha, Hb, Hc, He, Hd, Hm, Ho, Hn, E. reflexivity.
Qed.

Lemma B5_unserialisable_value_witness :
  exists t r,
    In r [[SqlInt 1; SqlOpaque "bytes"]] /\ In (SqlOpaque t) r
    /\ B5 (Cases.with_cursor (mkCursor [[SqlInt 1; SqlOpaque "bytes"]]
                                (Some ["id"; "photo"])))
          "/data/app.db" "SELECT id, photo FROM t" "/data/out/t.json"
       = (inr None,
          [SqlConnect (select_engine "/data/app.db") "/data/app.db";
           SqlExecute "SELECT id, photo FROM t";
           Makedirs (parent_dir "/data/out/t.json");
           OpenWrite "/data/out/t.json";
           Log ERROR ("Error executing SQL query: Object of type " ++ t
                      ++ " is not JSON serializable")]).
Proof.
  apply (@B5_unserialisable_value
           (Cases.with_cursor (mkCursor [[SqlInt 1; SqlOpaque "bytes"]]
                                 (Some ["id"; "photo"])))
           "/data/app.db" "SELECT id, photo FROM t" "/data/out/t.json"
           (mkCursor [[SqlInt 1; SqlOpaque "bytes"]] (Some ["id"; "photo"]))
           ["id"; "photo"]);
    reflexivity.
Defined.

(** ** Scrape a page *)

(** X15: with the path accepted, the page fetched and every file
    operation going through, [B6] writes the object [{url, timestamp,
    content}]; [content] is the text of the selection when a non-empty
    selector is given, and the text of the whole parsed page when the
    selector is absent or empty.  The request carries no headers. *)
Theorem B6_document (w : World) (url output_filename : string)
        (selector : option string) (resp : http_response) :
  guard_ok output_filename = true ->
  bs4_import w = None ->
  requests_get w url None = inr resp ->
  (resp_status resp < 400 \/ 600 <= resp_status resp)%Z ->
  PyStr.is_empty (parent_dir output_filename) = false ->
  fs_makedirs w (parent_dir output_filename) = None ->
  fs_open_write w output_filename = None ->
  fs_write w output_filename = None ->
  (forall sel content,
      selector = Some sel -> PyStr.is_empty sel = false ->
      soup_select w (resp_text resp) sel = inr content ->
      B6 w url output_filename selector
      = (inr true,
         [HttpGet url None 30;
          HtmlParse (resp_text resp);
          HtmlSelect sel;
          Makedirs (parent_dir output_filename);
          OpenWrite output_filename;
          WriteJson output_filename
            (JObj [("url", JStr url);
                   ("timestamp", JStr (clock_now w));
                   ("content", JStr content)]) 2;
          Log INFO ("Successfully scraped website to " ++ output_filename)]))
  /\ (selector = None \/ selector = Some EmptyString ->
      B6 w url output_filename selector
      = (inr true,
         [HttpGet url None 30;
          HtmlParse (resp_text resp);
          Makedirs (parent_dir output_filename);
          OpenWrite output_filename;
          WriteJson output_filename
            (JObj [("url", JStr url);
                   ("timestamp", JStr (clock_now w));
                   ("content", JStr (soup_str w (resp_text resp)))]) 2;
          Log INFO ("Successfully scraped website to " ++ output_filename)])).
Proof.
  intros Hg Hi Hr Hs Hd Hm Ho Hw. pose proof (status_fine resp Hs) as Hf.
  unfold raise_for_status in Hf.
  split.
  - intros sel content -> Hne Hsel. unfold_tasks. unfold truthy.
    rewrite Hg, Hi, Hr, Hf, Hne, Hsel, Hd, Hm, Ho, Hw. reflexivity.
  - intros [-> | ->]; unfold_tasks; unfold truthy; cbn [PyStr.is_empty];
      rewrite Hg, Hi, Hr, Hf, Hd, Hm, Ho, Hw; reflexivity.
Qed.

Lemma B6_document_witness :
  B6 (Cases.with_response Cases.page) "http://example.org/" "/data/out/page.json"
     (Some EmptyString)
  = (inr true,
     [HttpGet "http://example.org/" None 30;
      HtmlParse (resp_text Cases.page);
      Makedirs (parent_dir "/data/out/page.json");
      OpenWrite "/data/out/page.json";
      WriteJson "/data/out/page.json"
        (JObj [("url", JStr "http://example.org/");
               ("timestamp", JStr (clock_now (Cases.with_response Cases.page)));
               ("content",
                JStr (soup_str (Cases.with_response Cases.page)
                        (resp_text Cases.page)))]) 2;
      Log INFO ("Successfully scraped website to " ++ "/data/out/page.json")]).
Proof.
  refine (proj2 (@B6_document (Cases.with_response Cases.page) "http://example.org/"
                   "/data/out/page.json" (Some EmptyString) Cases.page
                   eq_refl eq_refl eq_refl _ eq_refl eq_refl eq_refl eq_refl)
            (or_intror eq_refl)).
  cbn. lia.
Defined.

(** ** Optional libraries *)

(** X16: when the HTML library cannot be imported, [B6] returns [False]
    without sending a request; when the tabular library cannot be
    imported, the endpoint answers 400 with the import error and reads
    no file. *)
Theorem missing_library (w : World) (e : exn) :
  (forall url output_filename selector,
      guard_ok output_filename = true ->
      bs4_import w = Some e ->
      B6 w url output_filename selector
      = (inr false, [Log ERROR ("Error scraping website: " ++ exn_str e)]))
  /\ (forall (cell scalar : Type) (py_eq : cell -> scalar -> bool)
             (pd : Pandas cell) (request : FilterRequest scalar),
         guard_ok (csv_path request) = true ->
         pd_import pd = Some e ->
         B10 py_eq pd request = (inl (HTTPException 400 (exn_str e)), [])).
Proof.
  split.
  - intros url out selector Hg Hi. unfold_tasks. rewrite Hg, Hi. reflexivity.
  - intros cell scalar py_eq pd request Hg Hi. unfold_tasks. rewrite Hg, Hi.
    reflexivity.
Qed.

Lemma missing_library_witness :
  B10 String.eqb (mkPandas (Some (PyExn "ModuleNotFoundError" "No module named 'pandas'"))
                    (pd_read_csv Demo.pandas) (pd_key_error Demo.pandas))
      (mkRequest "/data/users.csv" "status" (FScalar "active"))
  = (inl (HTTPException 400
            (exn_str (PyExn "ModuleNotFoundError" "No module named 'pandas'"))), []).
Proof.
  apply (proj2 (missing_library Demo.world
                  (PyExn "ModuleNotFoundError" "No module named 'pandas'")));
    reflexivity.
Defined.

(** ** Directory part and last component *)

Lemma list_of_app (a b : string) :
  list_ascii_of_string (a ++ b) = list_ascii_of_string a ++ list_ascii_of_string b.
Proof.
  induction a as [|c a IH]; [reflexivity|]. cbn. now rewrite IH.
Qed.

Lemma string_of_app (l1 l2 : list ascii) :
  string_of_list_ascii (l1 ++ l2)
  = (string_of_list_ascii l1 ++ string_of_list_ascii l2)%string.
Proof.
  induction l1 as [|c l1 IH]; [reflexivity|]. cbn. now rewrite IH.
Qed.

Lemma take_drop_while (f : ascii -> bool) (l : list ascii) :
  PyStr.take_while f l ++ PyStr.drop_while f l = l.
Proof.
  induction l as [|c l IH]; [reflexivity|]. cbn.
  destruct (f c); [cbn; now rewrite IH|reflexivity].
Qed.

Lemma take_while_no_slash (l : list ascii) :
  existsb PyStr.is_slash (PyStr.take_while PyStr.not_slash l) = false.
Proof.
  induction l as [|c l IH]; [reflexivity|]. cbn. unfold PyStr.not_slash.
  destruct (PyStr.is_slash c) eqn:E; cbn; [reflexivity|]. now rewrite E.
Qed.

Lemma take_while_stop (l rest : list ascii) :
  existsb PyStr.is_slash l = false ->
  PyStr.take_while PyStr.not_slash (l ++ PyStr.slash :: rest) = l.
Proof.
  induction l as [|c l IH]; cbn; [reflexivity|]. unfold PyStr.not_slash.
  destruct (PyStr.is_slash c); cbn; [discriminate|]. intros H.
  f_equal. apply IH. exact H.
Qed.

Lemma drop_while_stop (l rest : list ascii) :
  existsb PyStr.is_slash l = false ->
  PyStr.drop_while PyStr.not_slash (l ++ PyStr.slash :: rest) = PyStr.slash :: rest.
Proof.
  induction l as [|c l IH]; cbn; [reflexivity|]. unfold PyStr.not_slash.
  destruct (PyStr.is_slash c); cbn; [discriminate|]. exact IH.
Qed.

Lemma rev_joined (dir name : string) :
  List.rev (list_ascii_of_string (dir ++ "/" ++ name))
  = List.rev (list_ascii_of_string name)
    ++ PyStr.slash :: List.rev (list_ascii_of_string dir).
Proof.
  rewrite list_of_app. cbn [append list_ascii_of_string].
  rewrite rev_app_distr. cbn [List.rev]. rewrite <- app_assoc. reflexivity.
Qed.

Lemma basename_joined (dir name : string) :
  has_slash name = false -> posixpath.basename (dir ++ "/" ++ name) = name.
Proof.
  intros H. unfold posixpath.basename, posixpath.split_at_last_slash. cbn [snd].
  rewrite rev_joined, take_while_stop.
  - rewrite rev_involutive. apply string_of_list_ascii_of_string.
  - rewrite existsb_rev_eq. exact H.
Qed.

Lemma dirname_joined (d : string) (c : ascii) (name : string) :
  PyStr.is_slash c = false -> has_slash name = false ->
  posixpath.dirname ((d ++ String c EmptyString) ++ "/" ++ name)
  = (d ++ String c EmptyString)%string.
Proof.
  intros Hc H. unfold posixpath.dirname.
  rewrite rev_joined, drop_while_stop by (rewrite existsb_rev_eq; exact H).
  rewrite list_of_app, rev_app_distr. cbn [list_ascii_of_string List.rev app].
  cbn [forallb PyStr.drop_while].
  change (PyStr.is_slash PyStr.slash) with true. rewrite Hc. cbn [andb].
  cbn [List.rev]. rewrite rev_involutive, string_of_app.
  cbn [string_of_list_ascii].
  now rewrite string_of_list_ascii_of_string.
Qed.

(** X17: [os.path.dirname] and [os.path.basename] as the tasks use
    them.  The text up to the last slash followed by the last component
    is the path itself; the last component holds no slash; and a
    directory name that does not end with a slash, joined by a slash to
    a slash-free file name, is split back into the two. *)
Theorem posixpath_split_properties :
  (forall p,
      (fst (posixpath.split_at_last_slash p) ++ posixpath.basename p)%string = p
      /\ has_slash (posixpath.basename p) = false)
  /\ (forall d c name,
         PyStr.is_slash c = false -> has_slash name = false ->
         posixpath.dirname ((d ++ String c EmptyString) ++ "/" ++ name)
         = (d ++ String c EmptyString)%string
         /\ posixpath.basename ((d ++ String c EmptyString) ++ "/" ++ name) = name).
Proof.
  split.
  - intros p. unfold posixpath.basename, posixpath.split_at_last_slash.
    cbn [fst snd]. split.
    + rewrite <- string_of_app, <- rev_app_distr, take_drop_while, rev_involutive.
      apply string_of_list_ascii_of_string.
    + unfold has_slash. rewrite list_ascii_of_string_of_list_ascii.
      rewrite existsb_rev_eq. apply take_while_no_slash.
  - intros d c name Hc H. split.
    + now apply dirname_joined.
    + now apply basename_joined.
Qed.

Lemma posixpath_split_properties_witness :
  posixpath.dirname (("/data/sit" ++ String "e" EmptyString) ++ "/" ++ "readme.html")
  = ("/data/sit" ++ String "e" EmptyString)%string
  /\ posixpath.basename (("/data/sit" ++ String "e" EmptyString) ++ "/" ++ "readme.html")
     = "readme.html".
Proof.
  apply (proj2 posixpath_split_properties "/data/sit" "e"%char "readme.html");
    reflexivity.
Defined.

(** ** Render Markdown *)



(** X19: [B9] touches its output only after the source was read and
    rendered: when the source cannot be read, or the renderer raises
    (an unknown extension, say), it returns [False] and neither creates
    a directory nor opens the output file. *)
Theorem B9_failure_before_output (w : World) (md_path output_path : string)
        (extras : option (list string)) (e : exn) :
  guard_ok md_path = true -> guard_ok output_path = true ->
  (fs_read_text w md_path = inl e ->
   B9 w md_path output_path extras
   = (inr false,
      [OpenRead md_path; Log ERROR ("Error converting markdown: " ++ exn_str e)]))
  /\ (forall text,
         fs_read_text w md_path = inr text ->
         markdown_render w text (match extras with Some l => l | None => [] end)
         = inl e ->
         B9 w md_path output_path extras
         = (inr false,
            [OpenRead md_path;
             MarkdownRender text (match extras with Some l => l | None => [] end);
             Log ERROR ("Error converting markdown: " ++ exn_str e)])).
Proof.
  intros Ha Hb.
  assert (E : match extras with Some (x :: t) => x :: t | _ => [] end
              = match extras with Some l => l | None => [] end)
    by (destruct extras as [[|x t]|]; reflexivity).
  split.
  - intros Hr. unfold_tasks. rewrite Ha, Hb, Hr. reflexivity.
  - intros text Hr Hm. unfold_tasks. rewrite E, Ha, Hb, Hr, Hm. reflexivity.
Qed.

Lemma B9_failure_before_output_witness :
  B9 Demo.world "/data/docs/missing.md" "/data/site/missing.html" None
  = (inr false,
     [OpenRead "/data/docs/missing.md";
      Log ERROR ("Error converting markdown: "
                 ++ exn_str (PyExn "FileNotFoundError"
                               "[Errno 2] No such file or directory"))]).
Proof.
  apply (proj1 (@B9_failure_before_output Demo.world "/data/docs/missing.md"
                  "/data/site/missing.html" None
                  (PyExn "FileNotFoundError" "[Errno 2] No such file or directory")
                  eq_refl eq_refl)).
  reflexivity.
Defined.

(** ** The CSV filter endpoint, continued *)

Section FilterCsvMore.
Variables cell scalar : Type.
Variable py_eq : cell -> scalar -> bool.
Variable pd : Pandas cell.
Variable json_compliant : cell -> bool.

Lemma index_of_absent (name : string) (l : list string) :
  ~ In name l -> index_of name l = None.
Proof.
  induction l as [|x l IH]; [reflexivity|]. intros H. cbn.
  destruct (String.eqb_spec name x) as [->|_]; [exfalso; apply H; now left|].
  rewrite IH; [reflexivity|]. intros Hin. apply H. now right.
Qed.

Lemma index_of_present (name : string) (l : list string) :
  In name l -> exists i, index_of name l = Some i.
Proof.
  induction l as [|x l IH]; [intros []|]. intros H. cbn.
  destruct (String.eqb_spec name x) as [_|Hne]; [eauto|].
  destruct H as [->|H]; [congruence|].
  destruct (IH H) as [j ->]. cbn. eauto.
Qed.

(** X20: the handler only reads: its single effect is loading
    [csv_path], performed exactly when the guard accepts the path and
    the tabular library is available; it writes no file and logs
    nothing. *)
Theorem B10_only_reads (request : FilterRequest scalar) :
  trace (B10 py_eq pd request)
  = if guard_ok (csv_path request)
    then match pd_import pd with
         | None => [ReadCsv (csv_path request)]
         | Some _ => []
         end
    else [].
Proof.
  unfold_tasks. unfold series_eq.
  destruct (guard_ok (csv_path request)); cbn [negb]; split_cases; reflexivity.
Qed.

(** X21: a filter column that the loaded frame does not have is
    answered with 400, the detail being the text of the [KeyError] that
    the library raised for that label. *)
Theorem B10_missing_column (request : FilterRequest scalar) (df : DataFrame cell) :
  guard_ok (csv_path request) = true ->
  pd_import pd = None ->
  pd_read_csv pd (csv_path request) = inr df ->
  ~ In (filter_column request) (columns df) ->
  B10 py_eq pd request
  = (inl (HTTPException 400 (pd_key_error pd (filter_column request))),
     [ReadCsv (csv_path request)])
  /\ post_filter_csv py_eq pd json_compliant request
     = mkReply 400 (BodyDetail (pd_key_error pd (filter_column request))).
Proof.
  intros Hg Hi Hr Hc.
  assert (E : B10 py_eq pd request
              = (inl (HTTPException 400 (pd_key_error pd (filter_column request))),
                 [ReadCsv (csv_path request)])).
  { unfold_tasks. rewrite Hg, Hi, Hr, (index_of_absent _ _ Hc). reflexivity. }
  split; [exact E|]. unfold post_filter_csv. rewrite E. reflexivity.
Qed.

(** X22: a JSON array as filter value whose length differs from the
    number of rows of the frame is answered with 400 and the text of
    the length error, whatever the array holds. *)
Theorem B10_array_length_mismatch (request : FilterRequest scalar)
        (df : DataFrame cell) (vs : list scalar) :
  guard_ok (csv_path request) = true ->
  pd_import pd = None ->
  pd_read_csv pd (csv_path request) = inr df ->
  In (filter_column request) (columns df) ->
  filter_value_of request = FArray vs ->
  length vs <> length (rows df) ->
  post_filter_csv py_eq pd json_compliant request
  = mkReply 400
      (BodyDetail ("('Lengths must match to compare', ("
                   ++ decimal (Z.of_nat (length (rows df))) ++ ",), ("
                   ++ decimal (Z.of_nat (length vs)) ++ ",))")).
Proof.
  intros Hg Hi Hr Hc Hv Hl. unfold post_filter_csv.
  destruct (index_of_present _ _ Hc) as [i Hix].
  unfold_tasks. unfold series_eq.
  rewrite Hg, Hi, Hr, Hix, Hv, length_map.
  destruct (Nat.eqb_spec (length (rows df)) (length vs)) as [E|_];
    [congruence|reflexivity].
Qed.

End FilterCsvMore.

Lemma B10_missing_column_witness :
  B10 String.eqb Demo.pandas (mkRequest "/data/users.csv" "state" (FScalar "active"))
  = (inl (HTTPException 400 (pd_key_error Demo.pandas "state")),
     [ReadCsv "/data/users.csv"])
  /\ post_filter_csv String.eqb Demo.pandas Demo.any_text
       (mkRequest "/data/users.csv" "state" (FScalar "active"))
     = mkReply 400 (BodyDetail (pd_key_error Demo.pandas "state")).
Proof.
  apply (@B10_missing_column string string String.eqb Demo.pandas Demo.any_text
           (mkRequest "/data/users.csv" "state" (FScalar "active")) Demo.frame);
    try reflexivity.
  cbn. intuition discriminate.
Defined.

Lemma B10_array_length_mismatch_witness :
  post_filter_csv String.eqb Demo.pandas Demo.any_text
    (mkRequest "/data/users.csv" "status" (FArray ["active"]))
  = mkReply 400
      (BodyDetail ("('Lengths must match to compare', ("
                   ++ decimal (Z.of_nat (length (rows Demo.frame))) ++ ",), ("
                   ++ decimal (Z.of_nat (length ["active"])) ++ ",))")).
Proof.
  apply (@B10_array_length_mismatch string string String.eqb Demo.pandas Demo.any_text
           (mkRequest "/data/users.csv" "status" (FArray ["active"]))
           Demo.frame ["active"]);
    try reflexivity.
  - cbn. tauto.
  - cbn. discriminate.
Defined.

(** ** Parsing and printing paths *)

Lemma has_slash_cons (c : ascii) (s : string) :
  has_slash (String c s) = PyStr.is_slash c || has_slash s.
Proof. reflexivity. Qed.

Lemma split_segments_no_slash (s : string) :
  forallb (fun x => negb (has_slash x)) (PyStr.split PyStr.slash s) = true.
Proof.
  induction s as [|c s IH]; [reflexivity|]. cbn [PyStr.split].
  fold (PyStr.is_slash c).
  destruct (PyStr.is_slash c) eqn:Hc; [exact IH|].
  destruct (PyStr.split PyStr.slash s) as [|h t]; cbn [forallb] in *.
  - rewrite has_slash_cons, Hc. reflexivity.
  - rewrite has_slash_cons, Hc. exact IH.
Qed.

Lemma filter_keeps_plain (l : list string) :
  forallb (fun x => negb (has_slash x)) l = true ->
  forallb plain_segment (filter pathlib.keep_segment l) = true.
Proof.
  induction l as [|x l IH]; [reflexivity|]. cbn [forallb filter]. intros H.
  apply andb_true_iff in H as [Hx Hl].
  destruct (pathlib.keep_segment x) eqn:Hk; [|now apply IH].
  cbn [forallb]. unfold plain_segment. rewrite Hk, Hx. now apply IH.
Qed.

Lemma splitroot_root (s : string) :
  fst (posixpath.splitroot s) = EmptyString
  \/ fst (posixpath.splitroot s) = "/"
  \/ fst (posixpath.splitroot s) = "//".
Proof.
  destruct s as [|c0 [|c1 [|c2 s]]]; cbn;
    repeat match goal with
           | |- context [PyStr.is_slash ?c] => destruct (PyStr.is_slash c)
           end; cbn; auto.
Qed.

Lemma parse_normal (s : string) : normal_path (pathlib.parse s) = true.
Proof.
  unfold pathlib.parse. destruct (PyStr.is_empty s); [reflexivity|].
  pose proof (splitroot_root s) as Hr.
  destruct (posixpath.splitroot s) as [rt rel]. cbn [fst] in Hr.
  unfold normal_path. cbn [pathlib.root pathlib.tail].
  rewrite (@filter_keeps_plain _ (split_segments_no_slash rel)).
  destruct Hr as [->|[->| ->]]; reflexivity.
Qed.

Lemma split_plain (x : string) :
  has_slash x = false -> PyStr.split PyStr.slash x = [x].
Proof.
  induction x as [|c x IH]; [reflexivity|]. rewrite has_slash_cons. intros H.
  apply orb_false_elim in H as [Hc Hx]. cbn [PyStr.split].
  fold (PyStr.is_slash c). rewrite Hc, (IH Hx). reflexivity.
Qed.

Lemma split_at_separator (x rest : string) :
  has_slash x = false ->
  PyStr.split PyStr.slash (x ++ String PyStr.slash rest)
  = x :: PyStr.split PyStr.slash rest.
Proof.
  induction x as [|c x IH]; [reflexivity|]. rewrite has_slash_cons. intros H.
  apply orb_false_elim in H as [Hc Hx]. cbn [append PyStr.split].
  fold (PyStr.is_slash c). rewrite Hc, (IH Hx). reflexivity.
Qed.

Lemma split_join (x : string) (l : list string) :
  forallb plain_segment (x :: l) = true ->
  PyStr.split PyStr.slash (PyStr.join "/" (x :: l)) = x :: l.
Proof.
  revert x. induction l as [|y l IH]; intros x H.
  - cbn [forallb] in H. apply andb_true_iff in H as [Hx _].
    unfold plain_segment in Hx. apply andb_true_iff in Hx as [_ Hx].
    apply negb_true_iff in Hx. cbn [PyStr.join]. now apply split_plain.
  - cbn [forallb] in H. apply andb_true_iff in H as [Hx Hl].
    unfold plain_segment in Hx. apply andb_true_iff in Hx as [_ Hx].
    apply negb_true_iff in Hx.
    change (PyStr.join "/" (x :: y :: l))
      with (x ++ String PyStr.slash (PyStr.join "/" (y :: l)))%string.
    rewrite (@split_at_separator x _ Hx), (IH y Hl). reflexivity.
Qed.

Lemma filter_plain (l : list string) :
  forallb plain_segment l = true -> filter pathlib.keep_segment l = l.
Proof.
  induction l as [|x l IH]; [reflexivity|]. cbn [forallb filter]. intros H.
  apply andb_true_iff in H as [Hx Hl]. unfold plain_segment in Hx.
  apply andb_true_iff in Hx as [-> _]. now rewrite IH.
Qed.

(** The text of a non-empty list of segments begins with a character
    that is not a slash. *)
Lemma join_first_char (x : string) (l : list string) :
  forallb plain_segment (x :: l) = true ->
  exists c r, PyStr.join "/" (x :: l) = String c r /\ PyStr.is_slash c = false.
Proof.
  cbn [forallb]. intros H. apply andb_true_iff in H as [Hx _].
  unfold plain_segment, pathlib.keep_segment in Hx.
  destruct x as [|c x]; [discriminate|].
  apply andb_true_iff in Hx as [_ Hx]. apply negb_true_iff in Hx.
  rewrite has_slash_cons in Hx. apply orb_false_elim in Hx as [Hc _].
  destruct l as [|y l]; cbn [PyStr.join append]; eauto.
Qed.

Lemma parse_tail_text (l : list string) :
  forallb plain_segment l = true ->
  filter pathlib.keep_segment (PyStr.split PyStr.slash (PyStr.join "/" l)) = l.
Proof.
  destruct l as [|x l]; [reflexivity|]. intros H.
  rewrite (@split_join x l H). now apply filter_plain.
Qed.

(** X23: printing and parsing are inverse on the paths [pathlib] builds:
    every parsed path is in normal form, parsing the string form of a
    path in normal form gives the path back, and so the guard gives the
    same verdict on a string and on its normalised form. *)
Theorem parse_str_round_trip :
  (forall s, normal_path (pathlib.parse s) = true)
  /\ (forall p, normal_path p = true -> pathlib.parse (pathlib.str p) = p)
  /\ (forall s, B12s (pathlib.str (pathlib.parse s)) = B12s s).
Proof.
  assert (RT : forall p, normal_path p = true -> pathlib.parse (pathlib.str p) = p).
  { intros [rt tl]. unfold normal_path. cbn [pathlib.root pathlib.tail].
    intros H. apply andb_true_iff in H as [Hr Ht].
    pose proof (@parse_tail_text tl Ht) as Hp.
    unfold pathlib.str. cbn [pathlib.root pathlib.tail].
    destruct (String.eqb_spec rt "") as [->|_].
    - cbn [PyStr.is_empty].
      destruct tl as [|x tl]; [reflexivity|].
      destruct (@join_first_char x tl Ht) as (c & r & E & Hc).
      rewrite E in Hp |- *. cbn [PyStr.is_empty]. unfold pathlib.parse.
      cbn [PyStr.is_empty posixpath.splitroot]. rewrite Hc, Hp. reflexivity.
    - destruct (String.eqb_spec rt "/") as [->|_].
      + cbn [PyStr.is_empty append]. unfold pathlib.parse.
        cbn [PyStr.is_empty posixpath.splitroot].
        change (PyStr.is_slash "/"%char) with true. cbv iota.
        destruct tl as [|x tl]; [reflexivity|].
        destruct (@join_first_char x tl Ht) as (c & r & E & Hc).
        rewrite E in Hp |- *. rewrite Hc, Hp. reflexivity.
      + destruct (String.eqb_spec rt "//") as [->|_]; [|discriminate].
        cbn [PyStr.is_empty append]. unfold pathlib.parse.
        cbn [PyStr.is_empty posixpath.splitroot].
        change (PyStr.is_slash "/"%char) with true. cbv iota.
        destruct tl as [|x tl]; [reflexivity|].
        destruct (@join_first_char x tl Ht) as (c & r & E & Hc).
        rewrite E in Hp |- *. rewrite Hc, Hp. reflexivity. }
  split; [exact parse_normal|]. split; [exact RT|].
  intros s. rewrite !B12s_pure. unfold guard_ok.
  rewrite (RT _ (parse_normal s)). reflexivity.
Qed.

Lemma parse_str_round_trip_witness :
  pathlib.parse (pathlib.str (pathlib.mkPath "//" ["data"; ".."; "etc"]))
  = pathlib.mkPath "//" ["data"; ".."; "etc"].
Proof.
  apply (proj1 (proj2 parse_str_round_trip) (pathlib.mkPath "//" ["data"; ".."; "etc"])).
  reflexivity.
Defined.

(** ** Where the guard is right *)

Lemma resolve_without_dotdot (segs stack : list string) :
  forallb (fun x => negb (String.eqb x "..")) segs = true ->
  resolve_segments stack segs = List.rev stack ++ segs.
Proof.
  revert stack. induction segs as [|x segs IH]; intros stack H.
  - cbn. now rewrite app_nil_r.
  - cbn [forallb] in H. apply andb_true_iff in H as [Hx Hs].
    apply negb_true_iff in Hx. cbn [resolve_segments]. rewrite Hx, (IH _ Hs).
    cbn [List.rev]. now rewrite <- app_assoc.
Qed.

Lemma forallb_filter {A} (f g : A -> bool) (l : list A) :
  forallb f l = true -> forallb f (filter g l) = true.
Proof.
  induction l as [|x l IH]; [reflexivity|]. cbn [forallb filter]. intros H.
  apply andb_true_iff in H as [Hx Hl].
  destruct (g x); [cbn [forallb]; rewrite Hx|]; now apply IH.
Qed.

(** X24: a [str] that begins with [/data/] and has no [..] segment
    after it is accepted, and it does resolve to a place in the
    directory [/data]. *)
Theorem data_subtree_accepted (rest : string) :
  forallb (fun x => negb (String.eqb x "..")) (PyStr.split PyStr.slash rest) = true ->
  B12s ("/data/" ++ rest) = (inr true, [])
  /\ resolves_under_data (pathlib.parse ("/data/" ++ rest)) = true.
Proof.
  intros H. split.
  - exact (data_prefix_accepted (String "/" rest)).
  - unfold pathlib.parse. cbn [append PyStr.is_empty posixpath.splitroot].
    change (PyStr.is_slash "/"%char) with true.
    change (PyStr.is_slash "d"%char) with false. cbv iota.
    change (String "d" (String "a" (String "t" (String "a" (String "/" rest)))))
      with ("data" ++ String PyStr.slash rest)%string.
    rewrite (@split_at_separator "data" rest eq_refl).
    cbn [filter]. change (pathlib.keep_segment "data") with true. cbv iota.
    unfold resolves_under_data, pathlib.is_absolute.
    cbn [pathlib.root pathlib.tail PyStr.is_empty negb andb].
    cbn [resolve_segments]. change (String.eqb "data" "..") with false. cbv iota.
    rewrite resolve_without_dotdot by (now apply forallb_filter).
    reflexivity.
Qed.

Lemma data_subtree_accepted_witness :
  B12s ("/data/" ++ "in/2024/a.csv") = (inr true, [])
  /\ resolves_under_data (pathlib.parse ("/data/" ++ "in/2024/a.csv")) = true.
Proof.
  apply (data_subtree_accepted "in/2024/a.csv"). reflexivity.
Defined.

(** ** Failures of the query task before the output is touched *)

(** X25: when the connection cannot be opened or the statement is
    refused, [B5] returns [None] and leaves the output alone: no
    directory is created and the output file is not opened. *)
Theorem B5_failure_before_output (w : World) (db_path query output_filename : string)
        (e : exn) :
  guard_ok db_path = true -> guard_ok output_filename = true ->
  (sql_connect w (select_engine db_path) db_path = Some e ->
   B5 w db_path query output_filename
   = (inr None,
      [SqlConnect (select_engine db_path) db_path;
       Log ERROR ("Error executing SQL query: " ++ exn_str e)]))
  /\ (sql_connect w (select_engine db_path) db_path = None ->
      sql_execute w (select_engine db_path) db_path query = inl e ->
      B5 w db_path query output_filename
      = (inr None,
         [SqlConnect (select_engine db_path) db_path;
          SqlExecute query;
          Log ERROR ("Error executing SQL query: " ++ exn_str e)])).
Proof.
  intros Ha Hb. split.
  - intros Hc. unfold_tasks. rewrite Ha, Hb, Hc. reflexivity.
  - intros Hc He. unfold_tasks. rewrite Ha, Hb, Hc, He. reflexivity.
Qed.

Lemma B5_failure_before_output_witness :
  B5 Demo.world "/data/app.db" "SELEC 1" "/data/out/r.json"
  = (inr None,
     [SqlConnect (select_engine "/data/app.db") "/data/app.db";
      SqlExecute "SELEC 1";
      Log ERROR ("Error executing SQL query: "
                 ++ exn_str (PyExn "OperationalError" "syntax error"))]).
Proof.
  apply (proj2 (@B5_failure_before_output Demo.world "/data/app.db" "SELEC 1"
                  "/data/out/r.json" (PyExn "OperationalError" "syntax error")
                  eq_refl eq_refl)); reflexivity.
Defined.
